(** * The adaptive quiz engine of the cancer-risk screening application

    The repository holds two React components named [Quiz]: a
    multi-condition one that drains a queue of detected cancer types
    (module [Multi]) and an earlier single-condition one that carries its
    own candidate detection and scoring (module [Simple]).  Both are
    embedded here as functions over explicit state.

    Conventions of the embedding.
    - A JavaScript number is a [JS.number]: an exact rational or one of the
      IEEE special values.  Rounding error of binary64 and the sign of zero
      are not represented.
    - A JSON object is the finite map of its own properties.
    - A handler of a React component reads the state of the render that
      created it (the _snapshot_, the handler's argument [state]) and
      queues updates with [setState]; updaters are applied, in order, to
      the _live_ state carried by a [Run].  The snapshot is not changed by
      the updates a handler queues.
    - Calls to external collaborators (response store, risk table, login
      navigation) are recorded in the log of the [Run].  Toasts and console
      output are not recorded. *)

From Stdlib Require Import ZArith QArith Qround Lia Lqa.
From stdpp Require Import base gmap strings list option.

Local Open Scope Z_scope.

(** ** JavaScript numbers *)

Module JS.

Inductive number : Type :=
| Fin (q : Q)
| PInf
| NInf
| NaN.

Definition zero : number := Fin 0%Q.

Definition is_finite (a : number) : bool :=
  match a with Fin _ => true | _ => false end.

Definition neg (a : number) : number :=
  match a with
  | Fin x => Fin (- x)%Q
  | PInf => NInf
  | NInf => PInf
  | NaN => NaN
  end.

Definition add (a b : number) : number :=
  match a, b with
  | NaN, _ | _, NaN => NaN
  | Fin x, Fin y => Fin (x + y)%Q
  | PInf, NInf | NInf, PInf => NaN
  | PInf, _ | _, PInf => PInf
  | NInf, _ | _, NInf => NInf
  end.

Definition sub (a b : number) : number := add a (neg b).

(** An infinity of the sign of [s], or [NaN] when [s] is zero. *)
Definition signed_inf (s : comparison) : number :=
  match s with Eq => NaN | Gt => PInf | Lt => NInf end.

Definition mul (a b : number) : number :=
  match a, b with
  | NaN, _ | _, NaN => NaN
  | Fin x, Fin y => Fin (x * y)%Q
  | Fin x, PInf | PInf, Fin x => signed_inf (x ?= 0)%Q
  | Fin x, NInf | NInf, Fin x => signed_inf (CompOpp (x ?= 0)%Q)
  | PInf, PInf | NInf, NInf => PInf
  | PInf, NInf | NInf, PInf => NInf
  end.

(** Division; a zero divisor counts as [+0]. *)
Definition div (a b : number) : number :=
  match a, b with
  | NaN, _ | _, NaN => NaN
  | Fin x, Fin y =>
      match (y ?= 0)%Q with
      | Eq => signed_inf (x ?= 0)%Q
      | _ => Fin (x / y)%Q
      end
  | Fin _, PInf | Fin _, NInf => Fin 0%Q
  | PInf, Fin y => match (y ?= 0)%Q with Lt => NInf | _ => PInf end
  | NInf, Fin y => match (y ?= 0)%Q with Lt => PInf | _ => NInf end
  | _, _ => NaN
  end.

(** [Math.round]: nearest integer, a tie goes up. *)
Definition Math_round (a : number) : number :=
  match a with
  | Fin x => Fin (inject_Z (Qfloor (x + (1 # 2))%Q))
  | _ => a
  end.

(** [a > b] *)
Definition gtb (a b : number) : bool :=
  match a, b with
  | NaN, _ | _, NaN => false
  | Fin x, Fin y => match (x ?= y)%Q with Gt => true | _ => false end
  | PInf, PInf => false
  | PInf, _ => true
  | Fin _, NInf => true
  | _, _ => false
  end.

(** [a === 0] *)
Definition is_zero (a : number) : bool :=
  match a with Fin x => Qeq_bool x 0 | _ => false end.

(** [!a]: the falsy numbers are zero and [NaN]. *)
Definition falsy (a : number) : bool :=
  match a with Fin x => Qeq_bool x 0 | NaN => true | _ => false end.

Definition of_Z (z : Z) : number := Fin (inject_Z z).

End JS.

Export JS (number).

(** The two conversions between strings and numbers that the scorer relies
    on are built into the language; the development is parametric in
    them. *)
Class Builtins := {
  StringToNumber : string → number;   (* [Number(s)] *)
  NumberToString : number → string;   (* [n.toString()] *)
}.

(** ** Data model *)

(** An answer, [string | number]. *)
Inductive response : Type :=
| RStr (s : string)
| RNum (n : number).

(** [!response] *)
Definition falsy (r : response) : bool :=
  match r with
  | RStr s => bool_decide (s = "")
  | RNum n => JS.falsy n
  end.

(** [response === s] for a string literal [s] *)
Definition strict_eq_str (r : response) (s : string) : bool :=
  match r with
  | RStr s' => bool_decide (s' = s)
  | RNum _ => false
  end.

(** [Number(response)] *)
Definition Number {builtins : Builtins} (r : response) : number :=
  match r with
  | RStr s => StringToNumber s
  | RNum n => n
  end.

(** [response.toString()] *)
Definition toString {builtins : Builtins} (r : response) : string :=
  match r with
  | RStr s => s
  | RNum n => NumberToString n
  end.

(** [interface QuestionOption]; every field is optional.  The field
    [options] of the source is [opt_options] here. *)
Record QuestionOption : Type := {
  opt_min : option number;
  opt_max : option number;
  opt_step : option number;
  opt_options : option (list string);
  cancer_type_hints : option (list (string * number));
}.

(** [interface Question].  [next_question_logic] is the JSON object of the
    branching rules: its literal entries and, under the key ["default"],
    the default target. *)
Record Question : Type := {
  q_id : Z;
  question_text : string;
  question_type : string;
  options : QuestionOption;
  weight : number;
  category : option string;
  next_question_logic : option (gmap string Z);
}.

(** [Record<number, string | number>] *)
Abbreviation Responses := (gmap Z response).

Record RiskAssessment : Type := {
  ra_id : Z;
  risk_level : string;
  advice : string;
  min_score : number;
  max_score : number;
  foods_to_eat : list string;
  foods_to_avoid : list string;
  cancer_type : option string;
}.

Inductive Phase : Type := general | specialized.

(** ** Arrays *)

(** [arr.findIndex(p)]: the first position whose element satisfies [p],
    or [-1]. *)
Fixpoint findIndex_from {A} (p : A → bool) (i : Z) (arr : list A) : Z :=
  match arr with
  | [] => -1
  | x :: arr' => if p x then i else findIndex_from p (i + 1) arr'
  end.

Definition findIndex {A} (p : A → bool) (arr : list A) : Z :=
  findIndex_from p 0 arr.

(** [arr[i]] for a number [i] *)
Definition at_index {A} (arr : list A) (i : Z) : option A :=
  if i <? 0 then None else arr !! Z.to_nat i.

(** [arr.indexOf(x)] on strings *)
Definition indexOf (arr : list string) (x : string) : Z :=
  findIndex (λ y, bool_decide (y = x)) arr.

(** [arr.length] *)
Definition len {A} (arr : list A) : Z := Z.of_nat (length arr).

(** ** Branching: the next question index

    The same statement sequence occurs in [handleResponse] of both
    components. *)
Definition nextQuestionIndex (questions : list Question)
    (currentQuestionIndex : Z) (currentQuestion : Question)
    (response : response) : Z :=
  match next_question_logic currentQuestion with
  | Some logic =>
      match (match response with
             | RStr s => logic !! s
             | RNum _ => None
             end) with
      | Some nextQuestionId =>
          findIndex (λ q, bool_decide (q_id q = nextQuestionId)) questions
      | None =>
          match logic !! "default" with
          | Some nextQuestionId =>
              findIndex (λ q, bool_decide (q_id q = nextQuestionId)) questions
          | None => currentQuestionIndex + 1
          end
      end
  | None => currentQuestionIndex + 1
  end.

(** The guard of the advance: [next < questions.length && next >= 0]. *)
Definition inRange (questions : list Question) (next : Z) : bool :=
  (next <? len questions) && (0 <=? next).

(** ** Runs: live state and log of external calls *)

Inductive Effect : Type :=
| InsertResponses (user_id : string) (allResponses : Responses)
    (* the insert loop of [saveAllResponses] into [user_responses] *)
| NavigateLogin
    (* [navigate("/login")] *)
| ScorerCall (allResponses : Responses) (questions : list Question)
    (* a call of [calculateRiskScore] *)
| QueryRiskAssessment (score : number) (cancer_type : option string).
    (* the [risk_assessments] query, with its optional [cancer_type]
       filter *)

Record Run (S : Type) : Type := {
  live : S;
  log : list Effect;
}.
Arguments live {S} _.
Arguments log {S} _.

(** [setState(prev => f prev)] *)
Definition setState {S} (f : S → S) (run : Run S) : Run S :=
  {| live := f (live run); log := log run |}.

Definition emit {S} (e : Effect) (run : Run S) : Run S :=
  {| live := live run; log := log run ++ [e] |}.

(** What the outside world answers: the authenticated user, and the row
    [query.single()] returns ([None] when it reports an error). *)
Class Backend := {
  getUser : option string;
  risk_assessments_single : number → option string → option RiskAssessment;
}.

(** [saveAllResponses], the same in both components.  An error of an
    insert is caught inside and changes no state. *)
Definition saveAllResponses {backend : Backend} {S} (allResponses : Responses)
    (run : Run S) : Run S :=
  match getUser with
  | None => emit NavigateLogin run
  | Some user => emit (InsertResponses user allResponses) run
  end.

(** [t && t !== "general"] for an optional string [t]: the cancer type the
    risk query is narrowed by. *)
Definition cancerTypeFilter (t : option string) : option string :=
  match t with
  | Some t => if bool_decide (t = "") || bool_decide (t = "general")
              then None else Some t
  | None => None
  end.

(** ** The scoring loop *)

Section Scoring.
Context {builtins : Builtins}.

(** What one iteration adds to [totalScore]; [None] when the iteration
    executes no [totalScore += ...]. *)
Definition contribution (allResponses : Responses) (question : Question)
    : option number :=
  match allResponses !! q_id question with
  | None => None
  | Some response =>
      if falsy response then None
      else if bool_decide (question_type question = "boolean") then
        if strict_eq_str response "Yes" then Some (weight question)
        else None
      else if bool_decide (question_type question = "range") then
        match opt_min (options question), opt_max (options question) with
        | Some min, Some max =>
            let range := JS.sub max min in
            let normalizedValue :=
              JS.div (JS.sub (Number response) min) range in
            Some (JS.Math_round (JS.mul normalizedValue (weight question)))
        | _, _ => None
        end
      else if bool_decide (question_type question = "select") then
        match opt_options (options question) with
        | Some opts =>
            if 0 <? len opts then
              let responseIndex := indexOf opts (toString response) in
              if 0 <=? responseIndex then
                let optionScore :=
                  JS.mul (JS.div (JS.of_Z responseIndex)
                                 (JS.of_Z (len opts - 1)))
                         (weight question) in
                Some (JS.Math_round optionScore)
              else None
            else None
        | None => None
        end
      else None
  end.

(** One iteration of [for (const question of currentQuestionsSet)]. *)
Definition scoreStep (allResponses : Responses) (totalScore : number)
    (question : Question) : number :=
  match contribution allResponses question with
  | Some c => JS.add totalScore c
  | None => totalScore
  end.

(** The loop, from [let totalScore = 0].  [maxPossibleScore] is
    accumulated by the source and never read; it is left out. *)
Definition totalScore (allResponses : Responses)
    (currentQuestionsSet : list Question) : number :=
  fold_left (scoreStep allResponses) currentQuestionsSet JS.zero.

End Scoring.

(** ** The single-condition component *)

Module Simple.

(** The [useState] cells of the component. *)
Record QuizState : Type := {
  isLoading : bool;
  questions : list Question;
  generalQuestions : list Question;
  specializedQuestions : list Question;
  currentQuestionIndex : Z;
  responses : Responses;
  quizCompleted : bool;
  score : number;
  riskAssessment : option RiskAssessment;
  quizPhase : Phase;
  detectedCancerType : option string;
}.

Definition setQuestions v (s : QuizState) : QuizState :=
  {| isLoading := isLoading s; questions := v;
     generalQuestions := generalQuestions s;
     specializedQuestions := specializedQuestions s;
     currentQuestionIndex := currentQuestionIndex s;
     responses := responses s; quizCompleted := quizCompleted s;
     score := score s; riskAssessment := riskAssessment s;
     quizPhase := quizPhase s;
     detectedCancerType := detectedCancerType s |}.

Definition setCurrentQuestionIndex v (s : QuizState) : QuizState :=
  {| isLoading := isLoading s; questions := questions s;
     generalQuestions := generalQuestions s;
     specializedQuestions := specializedQuestions s;
     currentQuestionIndex := v;
     responses := responses s; quizCompleted := quizCompleted s;
     score := score s; riskAssessment := riskAssessment s;
     quizPhase := quizPhase s;
     detectedCancerType := detectedCancerType s |}.

Definition setResponses v (s : QuizState) : QuizState :=
  {| isLoading := isLoading s; questions := questions s;
     generalQuestions := generalQuestions s;
     specializedQuestions := specializedQuestions s;
     currentQuestionIndex := currentQuestionIndex s;
     responses := v; quizCompleted := quizCompleted s;
     score := score s; riskAssessment := riskAssessment s;
     quizPhase := quizPhase s;
     detectedCancerType := detectedCancerType s |}.

Definition setQuizCompleted v (s : QuizState) : QuizState :=
  {| isLoading := isLoading s; questions := questions s;
     generalQuestions := generalQuestions s;
     specializedQuestions := specializedQuestions s;
     currentQuestionIndex := currentQuestionIndex s;
     responses := responses s; quizCompleted := v;
     score := score s; riskAssessment := riskAssessment s;
     quizPhase := quizPhase s;
     detectedCancerType := detectedCancerType s |}.

Definition setScore v (s : QuizState) : QuizState :=
  {| isLoading := isLoading s; questions := questions s;
     generalQuestions := generalQuestions s;
     specializedQuestions := specializedQuestions s;
     currentQuestionIndex := currentQuestionIndex s;
     responses := responses s; quizCompleted := quizCompleted s;
     score := v; riskAssessment := riskAssessment s;
     quizPhase := quizPhase s;
     detectedCancerType := detectedCancerType s |}.

Definition setRiskAssessment v (s : QuizState) : QuizState :=
  {| isLoading := isLoading s; questions := questions s;
     generalQuestions := generalQuestions s;
     specializedQuestions := specializedQuestions s;
     currentQuestionIndex := currentQuestionIndex s;
     responses := responses s; quizCompleted := quizCompleted s;
     score := score s; riskAssessment := v;
     quizPhase := quizPhase s;
     detectedCancerType := detectedCancerType s |}.

Definition setQuizPhase v (s : QuizState) : QuizState :=
  {| isLoading := isLoading s; questions := questions s;
     generalQuestions := generalQuestions s;
     specializedQuestions := specializedQuestions s;
     currentQuestionIndex := currentQuestionIndex s;
     responses := responses s; quizCompleted := quizCompleted s;
     score := score s; riskAssessment := riskAssessment s;
     quizPhase := v;
     detectedCancerType := detectedCancerType s |}.

Definition setDetectedCancerType v (s : QuizState) : QuizState :=
  {| isLoading := isLoading s; questions := questions s;
     generalQuestions := generalQuestions s;
     specializedQuestions := specializedQuestions s;
     currentQuestionIndex := currentQuestionIndex s;
     responses := responses s; quizCompleted := quizCompleted s;
     score := score s; riskAssessment := riskAssessment s;
     quizPhase := quizPhase s;
     detectedCancerType := v |}.

(** The accumulator object of [analyzeGeneralResponses], in the order of
    its keys. *)
Definition cancerTypeScores0 : list (string * number) :=
  [("skin", JS.zero); ("kidney", JS.zero); ("brain", JS.zero);
   ("oral", JS.zero); ("breast", JS.zero)].

(** [if (scores.hasOwnProperty(cancerType)) scores[cancerType] += weight] *)
Definition addHint (scores : list (string * number))
    (hint : string * number) : list (string * number) :=
  map (λ entry, if bool_decide (entry.1 = hint.1)
                then (entry.1, JS.add entry.2 hint.2) else entry) scores.

(** The answers the detector skips: [!response || response === "No"]. *)
Definition isNegative (r : response) : bool :=
  falsy r || strict_eq_str r "No".

(** One iteration of [for (const question of generalQuestions)]. *)
Definition accumulate (generalResponses : Responses)
    (scores : list (string * number)) (question : Question)
    : list (string * number) :=
  match generalResponses !! q_id question with
  | None => scores
  | Some response =>
      if isNegative response then scores
      else match cancer_type_hints (options question) with
           | Some hints => fold_left addHint hints scores
           | None => scores
           end
  end.

(** [q.category === detectedType], between an optional property and a
    [string | null]: an absent category equals no detected type. *)
Definition sameLabel (category detectedType : option string) : Prop :=
  match category, detectedType with
  | Some c, Some t => c = t
  | _, _ => False
  end.

Global Instance sameLabel_dec (category detectedType : option string) :
  Decision (sameLabel category detectedType).
Proof. destruct category, detectedType; simpl; apply _. Defined.

(** One iteration of the search for the highest score. *)
Definition pickMax (acc : number * option string) (entry : string * number)
    : number * option string :=
  if JS.gtb entry.2 acc.1 then (entry.2, Some entry.1) else acc.

(** The value of [detectedType] when [analyzeGeneralResponses] publishes
    it. *)
Definition detectType (generalQuestions : list Question)
    (generalResponses : Responses) : option string :=
  let cancerTypeScores :=
    fold_left (accumulate generalResponses) generalQuestions
              cancerTypeScores0 in
  let '(maxScore, detectedType) :=
    fold_left pickMax cancerTypeScores (JS.zero, None) in
  if JS.is_zero maxScore then Some "general" else detectedType.

Section Handlers.
Context {builtins : Builtins} {backend : Backend}.

Definition calculateRiskScore (state : QuizState)
    (allResponses : Responses) (run : Run QuizState) : Run QuizState :=
  let currentQuestionsSet :=
    match quizPhase state with
    | specialized => generalQuestions state ++ questions state
    | general => questions state
    end in
  let total := totalScore allResponses currentQuestionsSet in
  let run := emit (ScorerCall allResponses currentQuestionsSet) run in
  let run := setState (setScore total) run in
  let filter_ := cancerTypeFilter (detectedCancerType state) in
  let run := emit (QueryRiskAssessment total filter_) run in
  match risk_assessments_single total filter_ with
  | Some data => setState (setRiskAssessment (Some data)) run
  | None => run
  end.

Definition analyzeGeneralResponses (state : QuizState)
    (generalResponses : Responses) (run : Run QuizState)
    : Run QuizState :=
  let detectedType :=
    detectType (generalQuestions state) generalResponses in
  let run := setState (setDetectedCancerType detectedType) run in
  let specializedQuestionsForType :=
    filter (λ q, sameLabel (category q) detectedType)
           (specializedQuestions state) in
  if 0 <? len specializedQuestionsForType then
    setState (setQuizPhase specialized)
      (setState (setCurrentQuestionIndex 0)
         (setState (setQuestions specializedQuestionsForType) run))
  else
    let run := saveAllResponses generalResponses run in
    let run := calculateRiskScore state generalResponses run in
    setState (setQuizCompleted true) run.

(** [handleResponse].  When [questions[currentQuestionIndex]] is
    undefined the property access raises, and the [catch] only shows a
    toast. *)
Definition handleResponse (state : QuizState) (questionId : Z)
    (response : response) (run : Run QuizState) : Run QuizState :=
  let newResponses := <[questionId := response]> (responses state) in
  let run := setState (setResponses newResponses) run in
  match at_index (questions state) (currentQuestionIndex state) with
  | None => run
  | Some currentQuestion =>
      let next :=
        nextQuestionIndex (questions state) (currentQuestionIndex state)
                          currentQuestion response in
      if inRange (questions state) next then
        setState (setCurrentQuestionIndex next) run
      else match quizPhase state with
           | general => analyzeGeneralResponses state newResponses run
           | specialized =>
               let run := saveAllResponses newResponses run in
               let run := calculateRiskScore state newResponses run in
               setState (setQuizCompleted true) run
           end
  end.

Definition resetQuiz (state : QuizState) (run : Run QuizState)
    : Run QuizState :=
  let run := setState (setCurrentQuestionIndex 0) run in
  let run := setState (setResponses ∅) run in
  let run := setState (setQuizCompleted false) run in
  let run := setState (setScore JS.zero) run in
  let run := setState (setRiskAssessment None) run in
  let run := setState (setQuizPhase general) run in
  let run := setState (setDetectedCancerType None) run in
  setState (setQuestions (generalQuestions state)) run.

End Handlers.

End Simple.

(** ** The multi-condition component *)

Module Multi.

(** [QuizState], the single state object of the component. *)
Record QuizState : Type := {
  isLoading : bool;
  questions : list Question;
  generalQuestions : list Question;
  specializedQuestions : list Question;
  currentQuestionIndex : Z;
  responses : Responses;
  quizCompleted : bool;
  score : number;
  riskAssessment : option RiskAssessment;
  quizPhase : Phase;
  detectedCancerTypes : list string;
  currentCancerType : option string;
  allCancerTypesProcessed : bool;
  cancerTypesQueue : list string;
  hasPositiveResponses : bool;
}.

(** The state of [useState<QuizState>({...})]. *)
Definition initialState : QuizState :=
  {| isLoading := true; questions := []; generalQuestions := [];
     specializedQuestions := []; currentQuestionIndex := 0;
     responses := ∅; quizCompleted := false; score := JS.zero;
     riskAssessment := None; quizPhase := general;
     detectedCancerTypes := []; currentCancerType := None;
     allCancerTypesProcessed := false; cancerTypesQueue := [];
     hasPositiveResponses := false |}.

(** Field updates, [{...s, field: v}]. *)
Definition with_isLoading v (s : QuizState) : QuizState :=
  {| isLoading := v; questions := questions s;
     generalQuestions := generalQuestions s;
     specializedQuestions := specializedQuestions s;
     currentQuestionIndex := currentQuestionIndex s;
     responses := responses s; quizCompleted := quizCompleted s;
     score := score s; riskAssessment := riskAssessment s;
     quizPhase := quizPhase s;
     detectedCancerTypes := detectedCancerTypes s;
     currentCancerType := currentCancerType s;
     allCancerTypesProcessed := allCancerTypesProcessed s;
     cancerTypesQueue := cancerTypesQueue s;
     hasPositiveResponses := hasPositiveResponses s |}.

Definition with_questions v (s : QuizState) : QuizState :=
  {| isLoading := isLoading s; questions := v;
     generalQuestions := generalQuestions s;
     specializedQuestions := specializedQuestions s;
     currentQuestionIndex := currentQuestionIndex s;
     responses := responses s; quizCompleted := quizCompleted s;
     score := score s; riskAssessment := riskAssessment s;
     quizPhase := quizPhase s;
     detectedCancerTypes := detectedCancerTypes s;
     currentCancerType := currentCancerType s;
     allCancerTypesProcessed := allCancerTypesProcessed s;
     cancerTypesQueue := cancerTypesQueue s;
     hasPositiveResponses := hasPositiveResponses s |}.

Definition with_generalQuestions v (s : QuizState) : QuizState :=
  {| isLoading := isLoading s; questions := questions s;
     generalQuestions := v;
     specializedQuestions := specializedQuestions s;
     currentQuestionIndex := currentQuestionIndex s;
     responses := responses s; quizCompleted := quizCompleted s;
     score := score s; riskAssessment := riskAssessment s;
     quizPhase := quizPhase s;
     detectedCancerTypes := detectedCancerTypes s;
     currentCancerType := currentCancerType s;
     allCancerTypesProcessed := allCancerTypesProcessed s;
     cancerTypesQueue := cancerTypesQueue s;
     hasPositiveResponses := hasPositiveResponses s |}.

Definition with_specializedQuestions v (s : QuizState) : QuizState :=
  {| isLoading := isLoading s; questions := questions s;
     generalQuestions := generalQuestions s;
     specializedQuestions := v;
     currentQuestionIndex := currentQuestionIndex s;
     responses := responses s; quizCompleted := quizCompleted s;
     score := score s; riskAssessment := riskAssessment s;
     quizPhase := quizPhase s;
     detectedCancerTypes := detectedCancerTypes s;
     currentCancerType := currentCancerType s;
     allCancerTypesProcessed := allCancerTypesProcessed s;
     cancerTypesQueue := cancerTypesQueue s;
     hasPositiveResponses := hasPositiveResponses s |}.

Definition with_currentQuestionIndex v (s : QuizState) : QuizState :=
  {| isLoading := isLoading s; questions := questions s;
     generalQuestions := generalQuestions s;
     specializedQuestions := specializedQuestions s;
     currentQuestionIndex := v;
     responses := responses s; quizCompleted := quizCompleted s;
     score := score s; riskAssessment := riskAssessment s;
     quizPhase := quizPhase s;
     detectedCancerTypes := detectedCancerTypes s;
     currentCancerType := currentCancerType s;
     allCancerTypesProcessed := allCancerTypesProcessed s;
     cancerTypesQueue := cancerTypesQueue s;
     hasPositiveResponses := hasPositiveResponses s |}.

Definition with_responses v (s : QuizState) : QuizState :=
  {| isLoading := isLoading s; questions := questions s;
     generalQuestions := generalQuestions s;
     specializedQuestions := specializedQuestions s;
     currentQuestionIndex := currentQuestionIndex s;
     responses := v; quizCompleted := quizCompleted s;
     score := score s; riskAssessment := riskAssessment s;
     quizPhase := quizPhase s;
     detectedCancerTypes := detectedCancerTypes s;
     currentCancerType := currentCancerType s;
     allCancerTypesProcessed := allCancerTypesProcessed s;
     cancerTypesQueue := cancerTypesQueue s;
     hasPositiveResponses := hasPositiveResponses s |}.

Definition with_quizCompleted v (s : QuizState) : QuizState :=
  {| isLoading := isLoading s; questions := questions s;
     generalQuestions := generalQuestions s;
     specializedQuestions := specializedQuestions s;
     currentQuestionIndex := currentQuestionIndex s;
     responses := responses s; quizCompleted := v;
     score := score s; riskAssessment := riskAssessment s;
     quizPhase := quizPhase s;
     detectedCancerTypes := detectedCancerTypes s;
     currentCancerType := currentCancerType s;
     allCancerTypesProcessed := allCancerTypesProcessed s;
     cancerTypesQueue := cancerTypesQueue s;
     hasPositiveResponses := hasPositiveResponses s |}.

Definition with_score v (s : QuizState) : QuizState :=
  {| isLoading := isLoading s; questions := questions s;
     generalQuestions := generalQuestions s;
     specializedQuestions := specializedQuestions s;
     currentQuestionIndex := currentQuestionIndex s;
     responses := responses s; quizCompleted := quizCompleted s;
     score := v; riskAssessment := riskAssessment s;
     quizPhase := quizPhase s;
     detectedCancerTypes := detectedCancerTypes s;
     currentCancerType := currentCancerType s;
     allCancerTypesProcessed := allCancerTypesProcessed s;
     cancerTypesQueue := cancerTypesQueue s;
     hasPositiveResponses := hasPositiveResponses s |}.

Definition with_riskAssessment v (s : QuizState) : QuizState :=
  {| isLoading := isLoading s; questions := questions s;
     generalQuestions := generalQuestions s;
     specializedQuestions := specializedQuestions s;
     currentQuestionIndex := currentQuestionIndex s;
     responses := responses s; quizCompleted := quizCompleted s;
     score := score s; riskAssessment := v;
     quizPhase := quizPhase s;
     detectedCancerTypes := detectedCancerTypes s;
     currentCancerType := currentCancerType s;
     allCancerTypesProcessed := allCancerTypesProcessed s;
     cancerTypesQueue := cancerTypesQueue s;
     hasPositiveResponses := hasPositiveResponses s |}.

Definition with_quizPhase v (s : QuizState) : QuizState :=
  {| isLoading := isLoading s; questions := questions s;
     generalQuestions := generalQuestions s;
     specializedQuestions := specializedQuestions s;
     currentQuestionIndex := currentQuestionIndex s;
     responses := responses s; quizCompleted := quizCompleted s;
     score := score s; riskAssessment := riskAssessment s;
     quizPhase := v;
     detectedCancerTypes := detectedCancerTypes s;
     currentCancerType := currentCancerType s;
     allCancerTypesProcessed := allCancerTypesProcessed s;
     cancerTypesQueue := cancerTypesQueue s;
     hasPositiveResponses := hasPositiveResponses s |}.

Definition with_detectedCancerTypes v (s : QuizState) : QuizState :=
  {| isLoading := isLoading s; questions := questions s;
     generalQuestions := generalQuestions s;
     specializedQuestions := specializedQuestions s;
     currentQuestionIndex := currentQuestionIndex s;
     responses := responses s; quizCompleted := quizCompleted s;
     score := score s; riskAssessment := riskAssessment s;
     quizPhase := quizPhase s;
     detectedCancerTypes := v;
     currentCancerType := currentCancerType s;
     allCancerTypesProcessed := allCancerTypesProcessed s;
     cancerTypesQueue := cancerTypesQueue s;
     hasPositiveResponses := hasPositiveResponses s |}.

Definition with_currentCancerType v (s : QuizState) : QuizState :=
  {| isLoading := isLoading s; questions := questions s;
     generalQuestions := generalQuestions s;
     specializedQuestions := specializedQuestions s;
     currentQuestionIndex := currentQuestionIndex s;
     responses := responses s; quizCompleted := quizCompleted s;
     score := score s; riskAssessment := riskAssessment s;
     quizPhase := quizPhase s;
     detectedCancerTypes := detectedCancerTypes s;
     currentCancerType := v;
     allCancerTypesProcessed := allCancerTypesProcessed s;
     cancerTypesQueue := cancerTypesQueue s;
     hasPositiveResponses := hasPositiveResponses s |}.

Definition with_allCancerTypesProcessed v (s : QuizState) : QuizState :=
  {| isLoading := isLoading s; questions := questions s;
     generalQuestions := generalQuestions s;
     specializedQuestions := specializedQuestions s;
     currentQuestionIndex := currentQuestionIndex s;
     responses := responses s; quizCompleted := quizCompleted s;
     score := score s; riskAssessment := riskAssessment s;
     quizPhase := quizPhase s;
     detectedCancerTypes := detectedCancerTypes s;
     currentCancerType := currentCancerType s;
     allCancerTypesProcessed := v;
     cancerTypesQueue := cancerTypesQueue s;
     hasPositiveResponses := hasPositiveResponses s |}.

Definition with_cancerTypesQueue v (s : QuizState) : QuizState :=
  {| isLoading := isLoading s; questions := questions s;
     generalQuestions := generalQuestions s;
     specializedQuestions := specializedQuestions s;
     currentQuestionIndex := currentQuestionIndex s;
     responses := responses s; quizCompleted := quizCompleted s;
     score := score s; riskAssessment := riskAssessment s;
     quizPhase := quizPhase s;
     detectedCancerTypes := detectedCancerTypes s;
     currentCancerType := currentCancerType s;
     allCancerTypesProcessed := allCancerTypesProcessed s;
     cancerTypesQueue := v;
     hasPositiveResponses := hasPositiveResponses s |}.

Definition with_hasPositiveResponses v (s : QuizState) : QuizState :=
  {| isLoading := isLoading s; questions := questions s;
     generalQuestions := generalQuestions s;
     specializedQuestions := specializedQuestions s;
     currentQuestionIndex := currentQuestionIndex s;
     responses := responses s; quizCompleted := quizCompleted s;
     score := score s; riskAssessment := riskAssessment s;
     quizPhase := quizPhase s;
     detectedCancerTypes := detectedCancerTypes s;
     currentCancerType := currentCancerType s;
     allCancerTypesProcessed := allCancerTypesProcessed s;
     cancerTypesQueue := cancerTypesQueue s;
     hasPositiveResponses := v |}.

(** The two functions the component imports from [@/utils/quizUtils];
    that file is not part of the sources at hand. *)
Class QuizUtils := {
  analyzeGeneralResponses :
    Responses → list Question → list string * bool;
      (* [{ detectedTypes, hasPositiveResponses }] *)
  calculateRiskScore : Responses → list Question → number;
}.

(** The Candidate Detector of section 4.2.  The component imports it as
    [analyzeGeneralResponses] from [@/utils/quizUtils], a file that is
    missing from the sources.  The known labels and the accumulation per
    question are those of the single-condition component. *)

(** Modelled from the spec: [anyPositive] of the missing
    [analyzeGeneralResponses]; some general question received a
    non-empty, non-"No" answer. *)
Definition anyPositive (generalAnswers : Responses)
    (generalQuestions : list Question) : bool :=
  existsb (λ q, match generalAnswers !! q_id q with
                | Some r => negb (Simple.isNegative r)
                | None => false
                end) generalQuestions.

(** Modelled from the spec: the score accumulators of the missing
    [analyzeGeneralResponses], after all general questions. *)
Definition accumulators (generalAnswers : Responses)
    (generalQuestions : list Question) : list (string * number) :=
  fold_left (Simple.accumulate generalAnswers) generalQuestions
            Simple.cancerTypeScores0.

(** Modelled from the spec: the maximum accumulator value of the missing
    [analyzeGeneralResponses], zero when none is positive. *)
Definition maxAccumulator (scores : list (string * number)) : number :=
  (fold_left Simple.pickMax scores (JS.zero, None)).1.

(** Modelled from the spec: the ordering of the missing
    [analyzeGeneralResponses]; insertion that keeps a list in descending
    score order and puts the new entry behind the entries of equal
    score. *)
Fixpoint insertDescending (e : string * number)
    (l : list (string * number)) : list (string * number) :=
  match l with
  | [] => [e]
  | y :: l' =>
      if JS.gtb e.2 y.2 then e :: y :: l' else y :: insertDescending e l'
  end.

(** Modelled from the spec: the ordering of the missing
    [analyzeGeneralResponses]; descending score, ties in discovery
    order. *)
Definition sortDescending (l : list (string * number))
    : list (string * number) :=
  fold_left (λ acc e, insertDescending e acc) l [].

(** Modelled from the spec: [candidates] of the missing
    [analyzeGeneralResponses]; ["general"] alone when the maximum
    accumulator is zero, else the labels of positive score in descending
    order, without "general" if another label is present. *)
Definition candidates (generalAnswers : Responses)
    (generalQuestions : list Question) : list string :=
  let scores := accumulators generalAnswers generalQuestions in
  if JS.is_zero (maxAccumulator scores) then ["general"]
  else
    let positive :=
      (sortDescending (filter (λ e, JS.gtb e.2 JS.zero = true) scores)).*1 in
    let specific := filter (λ t, t ≠ "general") positive in
    if 0 <? len specific then specific else positive.

(** Modelled from the spec: the missing [analyzeGeneralResponses], the
    contract [detect] of section 4.2. *)
Definition detect (generalAnswers : Responses)
    (generalQuestions : list Question) : list string * bool :=
  (candidates generalAnswers generalQuestions,
   anyPositive generalAnswers generalQuestions).

(** Modelled from the spec: the two functions of the missing
    [@/utils/quizUtils]; [calculateRiskScore] is the scorer of section
    4.4, which describes the loop the single-condition component has
    inline, and that loop is taken. *)
Definition specUtils {builtins : Builtins} : QuizUtils :=
  {| analyzeGeneralResponses := detect;
     calculateRiskScore := totalScore |}.

Section Handlers.
Context {utils : QuizUtils} {backend : Backend}.

(** The success path of [fetchQuestions] with a non-empty general
    partition. *)
Definition fetchQuestions (generalData specializedData : list Question)
    (run : Run QuizState) : Run QuizState :=
  setState (λ prev,
    with_isLoading false
      (with_questions generalData
         (with_specializedQuestions specializedData
            (with_generalQuestions generalData prev)))) run.

(** [fetchRiskAssessment]; an error of the query is caught and only
    shown. *)
Definition fetchRiskAssessment (state : QuizState) (score : number)
    (run : Run QuizState) : Run QuizState :=
  let primaryCancerType := head (detectedCancerTypes state) in
  let filter_ := cancerTypeFilter primaryCancerType in
  let run := emit (QueryRiskAssessment score filter_) run in
  match risk_assessments_single score filter_ with
  | Some data =>
      setState (λ prev, with_score score
                          (with_riskAssessment (Some data) prev)) run
  | None => run
  end.

(** The questions the final score ranges over:
    [[...generalQuestions, ...specializedQuestions.filter(q =>
       detectedCancerTypes.includes(q.category || ''))]] *)
Definition scoredQuestions (state : QuizState) : list Question :=
  generalQuestions state ++
  filter (λ q, default "" (category q) ∈ detectedCancerTypes state)
         (specializedQuestions state).

(** [loadQuestionsForCancerType], with the call of [loadNextCancerType]
    in its [else] branch passed in as [loadNext]. *)
Definition loadQuestionsForCancerType_with
    (loadNext : Run QuizState → option (Run QuizState))
    (state : QuizState) (cancerType : string) (run : Run QuizState)
    : option (Run QuizState) :=
  let specializedQuestionsForType :=
    filter (λ q, category q = Some cancerType)
           (specializedQuestions state) in
  if 0 <? len specializedQuestionsForType then
    Some (setState (λ prev,
            with_quizPhase specialized
              (with_currentQuestionIndex 0
                 (with_questions specializedQuestionsForType prev))) run)
  else loadNext run.

(** [loadNextCancerType].  It and [loadQuestionsForCancerType] call each
    other, both reading the same snapshot [state]; [fuel] bounds the
    number of calls, and [None] is the result of a run that needs more. *)
Fixpoint loadNextCancerType (fuel : nat) (state : QuizState)
    (run : Run QuizState) : option (Run QuizState) :=
  match fuel with
  | O => None
  | S fuel =>
      match cancerTypesQueue state with
      | nextType :: remainingQueue =>
          let run :=
            setState (λ prev,
              with_cancerTypesQueue remainingQueue
                (with_currentCancerType (Some nextType) prev)) run in
          loadQuestionsForCancerType_with
            (loadNextCancerType fuel state) state nextType run
      | [] =>
          let run := saveAllResponses (responses state) run in
          let qs := scoredQuestions state in
          let finalScore := calculateRiskScore (responses state) qs in
          let run := emit (ScorerCall (responses state) qs) run in
          let run := fetchRiskAssessment state finalScore run in
          Some (setState (λ prev,
                  with_score finalScore
                    (with_allCancerTypesProcessed true
                       (with_quizCompleted true prev))) run)
      end
  end.

Definition loadQuestionsForCancerType (fuel : nat) (state : QuizState)
    (cancerType : string) (run : Run QuizState)
    : option (Run QuizState) :=
  loadQuestionsForCancerType_with
    (loadNextCancerType fuel state) state cancerType run.

Definition processGeneralPhaseCompletion (fuel : nat) (state : QuizState)
    (responses : Responses) (run : Run QuizState)
    : option (Run QuizState) :=
  let '(detectedTypes, hasPositive) :=
    analyzeGeneralResponses responses (generalQuestions state) in
  if negb hasPositive then
    let run := saveAllResponses responses run in
    Some (setState (λ prev,
            with_allCancerTypesProcessed true
              (with_hasPositiveResponses false
                 (with_quizCompleted true prev))) run)
  else
    let specificTypes := filter (λ t, t ≠ "general") detectedTypes in
    let typesToProcess :=
      if 0 <? len specificTypes then specificTypes else detectedTypes in
    match typesToProcess with
    | first :: rest =>
        let run :=
          setState (λ prev,
            with_hasPositiveResponses true
              (with_currentCancerType (Some first)
                 (with_cancerTypesQueue rest
                    (with_detectedCancerTypes typesToProcess prev))))
            run in
        loadQuestionsForCancerType fuel state first run
    | [] =>
        let run := saveAllResponses responses run in
        let score := calculateRiskScore responses (generalQuestions state) in
        let run := emit (ScorerCall responses (generalQuestions state)) run in
        let run := fetchRiskAssessment state score run in
        Some (setState (λ prev,
                with_hasPositiveResponses true
                  (with_allCancerTypesProcessed true
                     (with_score score
                        (with_quizCompleted true prev)))) run)
    end.

(** The [else if] chain of [handleResponse] that runs when the next
    index is outside the active question set. *)
Definition endOfSet (fuel : nat) (state : QuizState)
    (newResponses : Responses) (run : Run QuizState)
    : option (Run QuizState) :=
  match quizPhase state with
  | general => processGeneralPhaseCompletion fuel state newResponses run
  | specialized =>
      if 0 <? len (cancerTypesQueue state) then
        loadNextCancerType fuel state run
      else
        let run := saveAllResponses newResponses run in
        let qs := scoredQuestions state in
        let finalScore := calculateRiskScore newResponses qs in
        let run := emit (ScorerCall newResponses qs) run in
        let run := fetchRiskAssessment state finalScore run in
        Some (setState (λ prev,
                with_allCancerTypesProcessed true
                  (with_score finalScore
                     (with_quizCompleted true prev))) run)
  end.

(** [handleResponse].  When [state.questions[state.currentQuestionIndex]]
    is undefined the property access raises, and the [catch] only shows
    a toast. *)
Definition handleResponse (fuel : nat) (state : QuizState)
    (questionId : Z) (response : response) (run : Run QuizState)
    : option (Run QuizState) :=
  let newResponses := <[questionId := response]> (responses state) in
  let run := setState (with_responses newResponses) run in
  match at_index (questions state) (currentQuestionIndex state) with
  | None => Some run
  | Some currentQuestion =>
      let next :=
        nextQuestionIndex (questions state) (currentQuestionIndex state)
                          currentQuestion response in
      if inRange (questions state) next then
        Some (setState (with_currentQuestionIndex next) run)
      else endOfSet fuel state newResponses run
  end.

(** [resetQuiz]: [setState({...state, ...})], built from the snapshot. *)
Definition resetQuiz (state : QuizState) (run : Run QuizState)
    : Run QuizState :=
  setState (λ _,
    with_questions (generalQuestions state)
      (with_hasPositiveResponses true
         (with_cancerTypesQueue []
            (with_allCancerTypesProcessed false
               (with_currentCancerType None
                  (with_detectedCancerTypes []
                     (with_quizPhase general
                        (with_riskAssessment None
                           (with_score JS.zero
                              (with_quizCompleted false
                                 (with_responses ∅
                                    (with_currentQuestionIndex 0
                                       state)))))))))))) run.

(** The runs of a session: questions are loaded, then answers are
    submitted while a question is shown, and the quiz may be reset.
    Each handler reads the state live when it starts. *)
Inductive reachable (generalData specializedData : list Question)
    : Run QuizState → Prop :=
| reach_loaded :
    generalData ≠ [] →
    reachable generalData specializedData
      (fetchQuestions generalData specializedData
         {| live := initialState; log := [] |})
| reach_answer run run' fuel questionId response :
    reachable generalData specializedData run →
    isLoading (live run) = false →
    quizCompleted (live run) = false →
    handleResponse fuel (live run) questionId response run = Some run' →
    reachable generalData specializedData run'
| reach_reset run :
    reachable generalData specializedData run →
    reachable generalData specializedData (resetQuiz (live run) run).

End Handlers.

End Multi.

(** ** Sample environments, for the worked examples *)

(** Decimal digits of a string, most significant first. *)
Fixpoint digitsValue (acc : Z) (s : string) : option Z :=
  match s with
  | EmptyString => Some acc
  | String c s' =>
      let n := Z.of_N (Ascii.N_of_ascii c) in
      if (48 <=? n) && (n <=? 57) then digitsValue (10 * acc + (n - 48)) s'
      else None
  end.

(** Conversions that agree with the language on the inputs the examples
    use: strings of decimal digits, and the numbers 0 to 9. *)
Definition sampleBuiltins : Builtins :=
  {| StringToNumber s :=
       match digitsValue 0 s with
       | Some z => JS.of_Z z
       | None => JS.NaN
       end;
     NumberToString n :=
       match n with
       | JS.Fin q =>
           if (Qden q =? 1)%positive && (0 <=? Qnum q) && (Qnum q <=? 9)
           then String (Ascii.ascii_of_N (Z.to_N (Qnum q + 48))) ""
           else "?"
       | JS.PInf => "Infinity"
       | JS.NInf => "-Infinity"
       | JS.NaN => "NaN"
       end |}.

(** A signed-in user and a risk table with one row per score. *)
Definition sampleBackend : Backend :=
  {| getUser := Some "u1";
     risk_assessments_single score cancer :=
       Some {| ra_id := 1; risk_level := "Low"; advice := "";
               min_score := JS.zero; max_score := JS.of_Z 100;
               foods_to_eat := []; foods_to_avoid := [];
               cancer_type := cancer |} |}.

Definition noOptions : QuestionOption :=
  {| opt_min := None; opt_max := None; opt_step := None;
     opt_options := None; cancer_type_hints := None |}.

Definition booleanQuestion (i : Z) (w : Z) (cat : string)
    (hints : option (list (string * number)))
    (logic : option (gmap string Z)) : Question :=
  {| q_id := i; question_text := ""; question_type := "boolean";
     options := {| opt_min := None; opt_max := None; opt_step := None;
                   opt_options := None; cancer_type_hints := hints |};
     weight := JS.of_Z w; category := Some cat;
     next_question_logic := logic |}.

Definition rangeQuestion (i : Z) (w : Z) (cat : string) (mn mx : Z)
    : Question :=
  {| q_id := i; question_text := ""; question_type := "range";
     options := {| opt_min := Some (JS.of_Z mn); opt_max := Some (JS.of_Z mx);
                   opt_step := Some (JS.of_Z 1);
                   opt_options := None; cancer_type_hints := None |};
     weight := JS.of_Z w; category := Some cat;
     next_question_logic := None |}.

Definition selectQuestion (i : Z) (w : Z) (cat : string)
    (choices : list string) : Question :=
  {| q_id := i; question_text := ""; question_type := "select";
     options := {| opt_min := None; opt_max := None; opt_step := None;
                   opt_options := Some choices; cancer_type_hints := None |};
     weight := JS.of_Z w; category := Some cat;
     next_question_logic := None |}.

(** A loaded session of the multi-condition component. *)
Definition loaded {utils : Multi.QuizUtils} {backend : Backend}
    (generalData specializedData : list Question) : Run Multi.QuizState :=
  Multi.fetchQuestions generalData specializedData
    {| live := Multi.initialState; log := [] |}.

(** ** Specification-side notions *)

(** What a question adds to the score: the amount of its
    [totalScore += ...], zero when the loop adds nothing for it. *)
Definition added {builtins : Builtins} (allResponses : Responses)
    (question : Question) : number :=
  default JS.zero (contribution allResponses question).

(** [round(weight * numerator / denominator)], the shape of the range and
    select formulas of section 4.4. *)
Definition scaled (weight numerator denominator : number) : number :=
  JS.Math_round (JS.div (JS.mul weight numerator) denominator).

(** The target id the branching rules select for an answer: the literal
    entry equal to a string answer, else the default entry. *)
Definition branchTarget (branchRules : gmap string Z) (answer : response)
    : option Z :=
  match answer with
  | RStr s =>
      match branchRules !! s with
      | Some t => Some t
      | None => branchRules !! "default"
      end
  | RNum _ => branchRules !! "default"
  end.

(** The outcome of resolving the next question, section 4.1. *)
Inductive Resolution : Type :=
| Index (i : Z)
| EndOfSet.

(** The position in [activeSet] of the first question with id [target],
    [-1] when there is none. *)
Definition positionOfId (activeSet : list Question) (target : Z) : Z :=
  match list_find (λ q, q_id q = target) activeSet with
  | Some (i, _) => Z.of_nat i
  | None => -1
  end.

(** [resolveNext] in the words of section 4.1: the literal entry matching
    the answer, else the default target, else the next position; an index
    outside the active set is reported as end-of-set. *)
Definition resolveNext_spec (question : Question) (answer : response)
    (activeSet : list Question) (currentIndex : Z) : Resolution :=
  let resolved :=
    match next_question_logic question ≫= (λ rules, branchTarget rules answer) with
    | Some target => positionOfId activeSet target
    | None => currentIndex + 1
    end in
  if bool_decide (resolved >= len activeSet ∨ resolved < 0) then EndOfSet
  else Index resolved.

(** What the live state holds of the initial fetch: the loading flag and
    the two partitions. *)
Definition partitions (run : Run Multi.QuizState)
    : bool * list Question * list Question :=
  (Multi.isLoading (live run), Multi.generalQuestions (live run),
   Multi.specializedQuestions (live run)).

(** ** Further notions of the components *)



(** The event [saveAllResponses] logs for the answers [saved]. *)
Definition saveEvent {backend : Backend} (saved : Responses) : Effect :=
  match getUser with
  | Some user => InsertResponses user saved
  | None => NavigateLogin
  end.

(** What the multi-condition component renders below its header. *)
Inductive View : Type :=
| LoadingView
| ResultsView
| HealthyView
| QuestionView (question : option Question)
| NoQuestionsView.

(** The conditional of the [return] of the component:
    [isLoading ? ... : quizCompleted ? (hasPositiveResponses ? ... : ...)
     : questions.length > 0 ? ... : ...]; the question view receives
    [questions[currentQuestionIndex]]. *)
Definition renderedView (state : Multi.QuizState) : View :=
  if Multi.isLoading state then LoadingView
  else if Multi.quizCompleted state then
    if Multi.hasPositiveResponses state then ResultsView else HealthyView
  else if 0 <? len (Multi.questions state) then
    QuestionView (at_index (Multi.questions state)
                           (Multi.currentQuestionIndex state))
  else NoQuestionsView.

(** All paths of the effect that fetches the questions.  [None] stands for
    an error of either query, which the [catch] turns into the end of
    loading; so does a general partition that is null or empty (an absent
    one is given as the empty list). *)
Definition fetchQuestionsOutcome {utils : Multi.QuizUtils}
    {backend : Backend} (data : option (list Question * list Question))
    (run : Run Multi.QuizState) : Run Multi.QuizState :=
  match data with
  | Some (generalData, specializedData) =>
      if 0 <? len generalData then
        Multi.fetchQuestions generalData specializedData run
      else setState (Multi.with_isLoading false) run
  | None => setState (Multi.with_isLoading false) run
  end.

(** The state of a quiz in progress, for a session that loaded
    [generalData] and [specializedData]: the current question exists,
    nothing is scored yet, and the active questions are the general ones
    with nothing detected or queued, or those of the current cancer type,
    the detected types being the visited ones, the current one and the
    queued ones, in this order. *)
Definition running (generalData specializedData : list Question)
    (s : Multi.QuizState) : Prop :=
  is_Some (at_index (Multi.questions s) (Multi.currentQuestionIndex s)) ∧
  Multi.score s = JS.zero ∧
  Multi.riskAssessment s = None ∧
  match Multi.quizPhase s with
  | general =>
      Multi.questions s = generalData ∧
      Multi.cancerTypesQueue s = [] ∧
      Multi.detectedCancerTypes s = [] ∧
      Multi.currentCancerType s = None
  | specialized =>
      Multi.hasPositiveResponses s = true ∧
      ∃ t visited,
        Multi.currentCancerType s = Some t ∧
        Multi.detectedCancerTypes s = visited ++ t :: Multi.cancerTypesQueue s ∧
        Multi.questions s =
          filter (λ q, category q = Some t) specializedData
  end.

(** The state of a completed quiz: the healthy outcome without score and
    assessment, or the scored outcome, whose score is a result of the
    scorer and whose assessment, if any, is a row the risk table returned
    for that score. *)
Definition finished {utils : Multi.QuizUtils} {backend : Backend}
    (s : Multi.QuizState) : Prop :=
  (Multi.hasPositiveResponses s = false ∧
   Multi.score s = JS.zero ∧ Multi.riskAssessment s = None) ∨
  (Multi.hasPositiveResponses s = true ∧
   (∃ saved qs, Multi.score s = Multi.calculateRiskScore saved qs) ∧
   (Multi.riskAssessment s = None ∨
    ∃ data cancer,
      Multi.riskAssessment s = Some data ∧
      risk_assessments_single (Multi.score s) cancer = Some data)).

(** A session with one general question about skin and one skin
    question, after the load and after the answer "Yes". *)
Definition sampleGeneral : Question :=
  booleanQuestion 1 10 "general" (Some [("skin", JS.of_Z 5)]) None.

Definition sampleSkin : Question := rangeQuestion 10 20 "skin" 0 10.

Definition sampleLoaded : Run Multi.QuizState :=
  loaded (utils := Multi.specUtils (builtins := sampleBuiltins))
         (backend := sampleBackend) [sampleGeneral] [sampleSkin].

Definition sampleSpecialized : Run Multi.QuizState :=
  default sampleLoaded
    (Multi.handleResponse
       (utils := Multi.specUtils (builtins := sampleBuiltins))
       (backend := sampleBackend)
       1 (live sampleLoaded) 1 (RStr "Yes") sampleLoaded).

(** The session after the skin question is answered too. *)
Definition sampleCompleted : Run Multi.QuizState :=
  default sampleSpecialized
    (Multi.handleResponse
       (utils := Multi.specUtils (builtins := sampleBuiltins))
       (backend := sampleBackend)
       1 (live sampleSpecialized) 10 (RNum (JS.of_Z 5)) sampleSpecialized).

(** * Properties *)

(** ** Arithmetic of JavaScript numbers *)


Lemma round_proper (x y : Q) :
  (x == y)%Q → JS.Math_round (JS.Fin x) = JS.Math_round (JS.Fin y).
Proof. intros E. unfold JS.Math_round. by rewrite E. Qed.

Lemma add_not_finite_l (a b : number) :
  JS.is_finite a = false → JS.is_finite (JS.add a b) = false.
Proof. by destruct a, b. Qed.

Lemma add_not_finite_r (a b : number) :
  JS.is_finite b = false → JS.is_finite (JS.add a b) = false.
Proof. by destruct a, b. Qed.

Lemma mul_not_finite_l (a b : number) :
  JS.is_finite a = false → JS.is_finite (JS.mul a b) = false.
Proof.
  destruct a, b as [y| | |]; try done; intros _; simpl;
    by destruct (y ?= 0)%Q.
Qed.

Lemma round_not_finite (a : number) :
  JS.is_finite a = false → JS.is_finite (JS.Math_round a) = false.
Proof. by destruct a. Qed.

Lemma div_by_zero_not_finite (a : number) (z : Q) :
  (z == 0)%Q → JS.is_finite (JS.div a (JS.Fin z)) = false.
Proof.
  intros Hz. apply Qeq_alt in Hz.
  destruct a as [x| | |]; simpl; rewrite ?Hz; try done.
  by destruct (x ?= 0)%Q.
Qed.




(** ** Arrays *)

Lemma findIndex_from_find {A} (p : A → bool) (i : Z) (arr : list A) :
  findIndex_from p i arr =
  match list_find (λ x, p x = true) arr with
  | Some (k, _) => i + Z.of_nat k
  | None => -1
  end.
Proof.
  revert i. induction arr as [|x arr IH]; intros i; [done|].
  cbn [findIndex_from list_find]. destruct (p x) eqn:E.
  - rewrite decide_True by done. simpl. lia.
  - rewrite decide_False by congruence. rewrite IH.
    destruct (list_find _ arr) as [[k y]|]; simpl; lia.
Qed.

Lemma findIndex_positionOfId (questions : list Question) (target : Z) :
  findIndex (λ q, bool_decide (q_id q = target)) questions =
  positionOfId questions target.
Proof.
  unfold findIndex, positionOfId. rewrite findIndex_from_find.
  rewrite (list_find_ext (λ q, bool_decide (q_id q = target) = true)
                         (λ q, q_id q = target)).
  - by destruct (list_find _ questions) as [[k y]|].
  - intros q. by rewrite bool_decide_eq_true.
Qed.

Lemma positionOfId_absent (questions : list Question) (target : Z) :
  (∀ q, q ∈ questions → q_id q ≠ target) →
  positionOfId questions target = -1.
Proof.
  intros Habs. unfold positionOfId.
  destruct (list_find _ questions) as [[k q]|] eqn:E; [|done].
  apply list_find_Some in E as (Hk & Hq & _).
  exfalso. eapply Habs; [|exact Hq]. by eapply list_elem_of_lookup_2.
Qed.

(** [indexOf] gives the first position of a present element *)
Lemma indexOf_first (arr : list string) (x : string) (k : nat) :
  arr !! k = Some x →
  (∀ j, (j < k)%nat → arr !! j ≠ Some x) →
  indexOf arr x = Z.of_nat k.
Proof.
  intros Hk Hfirst. unfold indexOf, findIndex. rewrite findIndex_from_find.
  destruct (list_find _ arr) as [[i y]|] eqn:E.
  - apply list_find_Some in E as (Hi & Hy & Hmin).
    apply bool_decide_eq_true in Hy. subst y.
    destruct (Nat.lt_trichotomy i k) as [Hlt|[->|Hgt]]; [|lia|].
    + by destruct (Hfirst i Hlt).
    + destruct (Hmin k x Hk Hgt). by apply bool_decide_eq_true.
  - apply list_find_None in E. rewrite Forall_forall in E.
    destruct (E x).
    + apply list_elem_of_In. by eapply list_elem_of_lookup_2.
    + by apply bool_decide_eq_true.
Qed.


(** ** The scorer *)

Section ScorerFacts.
Context {builtins : Builtins}.



(** Once the running total is not finite it stays so. *)
Lemma scoreStep_not_finite (allResponses : Responses) (total : number)
    (question : Question) :
  JS.is_finite total = false →
  JS.is_finite (scoreStep allResponses total question) = false.
Proof.
  intros Hnf. unfold scoreStep.
  destruct (contribution allResponses question); [|done].
  by apply add_not_finite_l.
Qed.

Lemma fold_scoreStep_not_finite (allResponses : Responses)
    (qs : list Question) (total : number) :
  JS.is_finite total = false →
  JS.is_finite (fold_left (scoreStep allResponses) qs total) = false.
Proof.
  revert total. induction qs as [|q qs IH]; intros total Hnf; [done|].
  cbn [fold_left]. apply IH. by apply scoreStep_not_finite.
Qed.

End ScorerFacts.



(** C10.  A recorded answer that is the empty string or the number 0 is
    treated by the scorer exactly as a missing answer: the question adds
    what it would add with the answer deleted, which is nothing, whatever
    its type, weight and bounds. *)
Theorem falsy_answer_counts_as_unanswered {builtins : Builtins}
    (allResponses : Responses) (question : Question) (answer : response)
    (total : number) :
  allResponses !! q_id question = Some answer →
  (answer = RStr "" ∨ ∃ q, answer = RNum (JS.Fin q) ∧ (q == 0)%Q) →
  contribution allResponses question =
    contribution (delete (q_id question) allResponses) question ∧
  added allResponses question = JS.zero ∧
  scoreStep allResponses total question = total.
Proof.
  intros Hresp Hfalsy.
  assert (falsy answer = true) as Hf.
  { destruct Hfalsy as [->|(q & -> & Hq)]; [done|].
    simpl. by apply Qeq_bool_iff. }
  assert (contribution allResponses question = None) as Hnone.
  { unfold contribution. by rewrite Hresp, Hf. }
  unfold added, scoreStep. rewrite Hnone. repeat split.
  unfold contribution. by rewrite lookup_delete_eq.
Qed.

(** A range question over -10..10 of weight 10 answered with the number 0
    adds nothing, where the range formula gives 5. *)
Lemma falsy_answer_counts_as_unanswered_witness :
  let builtins := sampleBuiltins in
  let q := rangeQuestion 7 10 "skin" (-10) 10 in
  let answers : Responses := {[ 7 := RNum (JS.of_Z 0) ]} in
  (added answers q = JS.zero ∧
   scoreStep answers (JS.of_Z 3) q = JS.of_Z 3) ∧
  scaled (weight q) (JS.sub (JS.of_Z 0) (JS.of_Z (-10)))
         (JS.sub (JS.of_Z 10) (JS.of_Z (-10))) = JS.of_Z 5.
Proof.
  intros builtins q answers. split; [|by vm_compute].
  refine (proj2 (falsy_answer_counts_as_unanswered
                   answers q (RNum (JS.of_Z 0)) (JS.of_Z 3) _ _)).
  - reflexivity.
  - right. exists 0%Q. split; reflexivity.
Defined.

(** The claim C7 fails: with a range question whose bounds coincide, the
    step of the loop changes the running total, and the weight of a later
    question answered "Yes" no longer shows in the score. *)
Lemma degenerate_range_counterexample :
  let builtins := sampleBuiltins in
  let q1 := rangeQuestion 1 10 "skin" 5 5 in
  let q2 := booleanQuestion 2 10 "skin" None None in
  let answers : Responses := {[ 1 := RNum (JS.of_Z 7); 2 := RStr "Yes" ]} in
  added answers q1 = JS.PInf ∧
  totalScore answers [q2] = JS.of_Z 10 ∧
  totalScore answers [q1; q2] = JS.PInf.
Proof. by vm_compute. Qed.

(** C7, amended.  A range question whose bounds are equal and whose answer
    is present makes the scorer divide by zero: scoring still returns,
    but what the question adds is not a finite number, and neither is the
    score of any question set that contains it. *)
Theorem degenerate_range_not_finite {builtins : Builtins} (allResponses : Responses)
    (question : Question) (answer : response) (min max : Q)
    (before after : list Question) :
  allResponses !! q_id question = Some answer →
  falsy answer = false →
  question_type question = "range" →
  opt_min (options question) = Some (JS.Fin min) →
  opt_max (options question) = Some (JS.Fin max) →
  (max == min)%Q →
  JS.is_finite (added allResponses question) = false ∧
  JS.is_finite (totalScore allResponses (before ++ question :: after))
    = false.
Proof.
  intros Hresp Htruthy Ht Hmin Hmax Heq.
  assert (∃ c, contribution allResponses question = Some c ∧
               JS.is_finite c = false) as (c & Hc & Hnf).
  { unfold contribution. rewrite Hresp, Htruthy, Ht, Hmin, Hmax.
    rewrite bool_decide_eq_false_2 by done.
    rewrite bool_decide_eq_true_2 by done. cbv beta iota zeta.
    eexists; split; [done|].
    apply round_not_finite, mul_not_finite_l.
    change (JS.sub (JS.Fin max) (JS.Fin min)) with (JS.Fin (max + - min)%Q).
    apply div_by_zero_not_finite. rewrite Heq. ring. }
  split.
  - unfold added. by rewrite Hc.
  - unfold totalScore. rewrite fold_left_app. cbn [fold_left].
    apply fold_scoreStep_not_finite.
    unfold scoreStep at 1. rewrite Hc. by apply add_not_finite_r.
Qed.

Lemma degenerate_range_not_finite_witness :
  let builtins := sampleBuiltins in
  let q1 := rangeQuestion 1 10 "skin" 5 5 in
  let q2 := booleanQuestion 2 10 "skin" None None in
  let answers : Responses := {[ 1 := RNum (JS.of_Z 7); 2 := RStr "Yes" ]} in
  JS.is_finite (added answers q1) = false ∧
  JS.is_finite (totalScore answers ([q2] ++ q1 :: [q2])) = false.
Proof.
  intros builtins q1 q2 answers.
  apply (degenerate_range_not_finite answers q1 (RNum (JS.of_Z 7))
           (inject_Z 5) (inject_Z 5) [q2] [q2]); reflexivity.
Defined.

(** ** Branching *)

(** The index [handleResponse] computes is the position of the selected
    target, or the next position when the rules select none. *)
Lemma nextQuestionIndex_target (questions : list Question) (i : Z)
    (question : Question) (answer : response) :
  nextQuestionIndex questions i question answer =
  match next_question_logic question ≫= (λ rules, branchTarget rules answer) with
  | Some target => positionOfId questions target
  | None => i + 1
  end.
Proof.
  unfold nextQuestionIndex, branchTarget.
  destruct (next_question_logic question) as [logic|]; [|done]. simpl.
  destruct answer as [s|n].
  - destruct (logic !! s);
      [by rewrite findIndex_positionOfId|].
    destruct (logic !! "default"); [by rewrite findIndex_positionOfId|done].
  - destruct (logic !! "default"); [by rewrite findIndex_positionOfId|done].
Qed.

Lemma inRange_resolution (questions : list Question) (next : Z) :
  (if inRange questions next then Index next else EndOfSet) =
  if bool_decide (next >= len questions ∨ next < 0) then EndOfSet
  else Index next.
Proof.
  unfold inRange. case_bool_decide as Hd.
  - destruct (next <? len questions) eqn:E1; [|done].
    destruct (0 <=? next) eqn:E2; [|done].
    apply Z.ltb_lt in E1. apply Z.leb_le in E2. lia.
  - rewrite (proj2 (Z.ltb_lt _ _)) by lia.
    by rewrite (proj2 (Z.leb_le _ _)) by lia.
Qed.

Lemma nextQuestionIndex_resolveNext (questions : list Question) (i : Z)
    (question : Question) (answer : response) :
  (if inRange questions (nextQuestionIndex questions i question answer)
   then Index (nextQuestionIndex questions i question answer)
   else EndOfSet) =
  resolveNext_spec question answer questions i.
Proof.
  rewrite inRange_resolution. unfold resolveNext_spec.
  by rewrite nextQuestionIndex_target.
Qed.



(** C9.  For an answer that is a number the literal entries of the
    branching rules are not consulted: the next index is the position of
    the default target if the rules have one, else the current index plus
    one. *)
Theorem number_answer_skips_literal_entries (questions : list Question)
    (currentQuestionIndex : Z) (currentQuestion : Question) (n : number) :
  nextQuestionIndex questions currentQuestionIndex currentQuestion (RNum n) =
  match next_question_logic currentQuestion ≫= (λ logic, logic !! "default") with
  | Some target => positionOfId questions target
  | None => currentQuestionIndex + 1
  end.
Proof. by rewrite nextQuestionIndex_target. Qed.

(** The number 5 against rules with the literal key "5": the string answer
    follows the entry, the number advances sequentially. *)
Example number_answer_with_matching_key :
  let q1 := booleanQuestion 1 10 "general" None (Some {[ "5" := 3 ]}) in
  let q2 := booleanQuestion 2 10 "general" None None in
  let q3 := booleanQuestion 3 10 "general" None None in
  nextQuestionIndex [q1; q2; q3] 0 q1 (RStr "5") = 2 ∧
  nextQuestionIndex [q1; q2; q3] 0 q1 (RNum (JS.of_Z 5)) = 1.
Proof. by vm_compute. Qed.

(** The claim C3 fails: the first of two general questions sends the
    answer "No" to a question id that is not in the set.  Sequential
    advance would show the second question; instead the set ends and the
    quiz completes, the index still 0. *)
Lemma missing_branch_target_counterexample :
  let U := Multi.specUtils (builtins := sampleBuiltins) in
  let B := sampleBackend in
  let g1 := booleanQuestion 1 10 "general" None (Some {[ "No" := 99 ]}) in
  let g2 := booleanQuestion 2 10 "general" None None in
  let r0 := loaded [g1; g2] [] in
  nextQuestionIndex [g1; g2] 0 g1 (RStr "No") = -1 ∧
  ∃ run', Multi.handleResponse 1 (live r0) 1 (RStr "No") r0 = Some run' ∧
          Multi.currentQuestionIndex (live run') = 0 ∧
          Multi.quizCompleted (live run') = true ∧
          Some run' ≠
            Some (setState (Multi.with_currentQuestionIndex (0 + 1))
                    (setState (Multi.with_responses {[ 1 := RStr "No" ]}) r0)).
Proof.
  intros U B g1 g2 r0. split; [by vm_compute|].
  eexists. split; [by vm_compute|]. split; [done|]. split; [done|].
  intros E.
  assert (E' := f_equal (fmap (λ r, Multi.quizCompleted (live r))) E).
  vm_compute in E'. discriminate.
Qed.

(** C3, amended.  When the target the branching rules select for the
    answer is the id of no question of the active set, the lookup yields
    -1 and the submission is handled as the end of the set (the phase
    transition runs); nothing is raised, and there is no sequential
    advance. *)
Theorem missing_branch_target_ends_set {utils : Multi.QuizUtils}
    {backend : Backend}
    (fuel : nat) (state : Multi.QuizState) (questionId : Z)
    (answer : response) (run : Run Multi.QuizState)
    (currentQuestion : Question) (logic : gmap string Z) (target : Z) :
  at_index (Multi.questions state) (Multi.currentQuestionIndex state)
    = Some currentQuestion →
  next_question_logic currentQuestion = Some logic →
  branchTarget logic answer = Some target →
  (∀ q, q ∈ Multi.questions state → q_id q ≠ target) →
  nextQuestionIndex (Multi.questions state) (Multi.currentQuestionIndex state)
                    currentQuestion answer = -1 ∧
  Multi.handleResponse fuel state questionId answer run =
  Multi.endOfSet fuel state
    (<[questionId := answer]> (Multi.responses state))
    (setState (Multi.with_responses
                 (<[questionId := answer]> (Multi.responses state))) run).
Proof.
  intros Hcur Hlogic Htarget Habs.
  assert (nextQuestionIndex (Multi.questions state)
            (Multi.currentQuestionIndex state) currentQuestion answer = -1)
    as Hnext.
  { rewrite nextQuestionIndex_target, Hlogic. simpl. rewrite Htarget.
    by apply positionOfId_absent. }
  split; [done|].
  unfold Multi.handleResponse. rewrite Hcur, Hnext.
  unfold inRange. by rewrite andb_false_r.
Qed.

Lemma missing_branch_target_ends_set_witness :
  let U := Multi.specUtils (builtins := sampleBuiltins) in
  let B := sampleBackend in
  let g1 := booleanQuestion 1 10 "general" None (Some {[ "No" := 99 ]}) in
  let g2 := booleanQuestion 2 10 "general" None None in
  let r0 := loaded [g1; g2] [] in
  nextQuestionIndex [g1; g2] 0 g1 (RStr "No") = -1 ∧
  Multi.handleResponse 1 (live r0) 1 (RStr "No") r0 =
  Multi.endOfSet 1 (live r0) {[ 1 := RStr "No" ]}
    (setState (Multi.with_responses {[ 1 := RStr "No" ]}) r0).
Proof.
  intros U B g1 g2 r0.
  apply (missing_branch_target_ends_set 1 (live r0) 1 (RStr "No") r0 g1
           {[ "No" := 99 ]} 99); try reflexivity.
  intros q Hq. apply list_elem_of_In in Hq.
  destruct Hq as [<-|[<-|[]]]; vm_compute; discriminate.
Defined.

(** ** The question partitions are loaded once *)

Section MultiFacts.
Context {utils : Multi.QuizUtils} {backend : Backend}.

Lemma saveAllResponses_live {S} (allResponses : Responses) (run : Run S) :
  live (saveAllResponses allResponses run) = live run.
Proof. unfold saveAllResponses. by destruct getUser. Qed.

Lemma saveAllResponses_log {S} (allResponses : Responses) (run : Run S) :
  log (saveAllResponses allResponses run) =
  log run ++ [match getUser with
              | Some user => InsertResponses user allResponses
              | None => NavigateLogin
              end].
Proof. unfold saveAllResponses. by destruct getUser. Qed.

Lemma fetchRiskAssessment_partitions (state : Multi.QuizState)
    (score : number) (run : Run Multi.QuizState) :
  partitions (Multi.fetchRiskAssessment state score run) = partitions run.
Proof.
  unfold Multi.fetchRiskAssessment.
  by destruct (risk_assessments_single _ _).
Qed.

Lemma loadNextCancerType_partitions (fuel : nat) (state : Multi.QuizState)
    (run run' : Run Multi.QuizState) :
  Multi.loadNextCancerType fuel state run = Some run' →
  partitions run' = partitions run.
Proof.
  revert run. induction fuel as [|fuel IH]; intros run; [done|].
  cbn [Multi.loadNextCancerType].
  destruct (Multi.cancerTypesQueue state) as [|nextType remainingQueue].
  - intros [= <-]. unfold partitions. cbn.
    change (partitions (Multi.fetchRiskAssessment state
              (Multi.calculateRiskScore (Multi.responses state)
                 (Multi.scoredQuestions state))
              (emit (ScorerCall (Multi.responses state)
                       (Multi.scoredQuestions state))
                 (saveAllResponses (Multi.responses state) run)))
            = partitions run).
    rewrite fetchRiskAssessment_partitions. unfold partitions. cbn.
    by rewrite saveAllResponses_live.
  - unfold Multi.loadQuestionsForCancerType_with.
    destruct (0 <? _).
    + by intros [= <-].
    + intros Hnext. by rewrite (IH _ Hnext).
Qed.

Lemma endOfSet_partitions (fuel : nat) (state : Multi.QuizState)
    (newResponses : Responses) (run run' : Run Multi.QuizState) :
  Multi.endOfSet fuel state newResponses run = Some run' →
  partitions run' = partitions run.
Proof.
  unfold Multi.endOfSet. destruct (Multi.quizPhase state).
  - unfold Multi.processGeneralPhaseCompletion.
    destruct (Multi.analyzeGeneralResponses _ _) as [detectedTypes hasPositive].
    destruct hasPositive; cbn [negb].
    + destruct (if 0 <? _ then _ else _) as [|first rest].
      * intros [= <-]. unfold partitions. cbn.
        change (partitions (Multi.fetchRiskAssessment state
                  (Multi.calculateRiskScore newResponses
                     (Multi.generalQuestions state))
                  (emit (ScorerCall newResponses
                           (Multi.generalQuestions state))
                     (saveAllResponses newResponses run)))
                = partitions run).
        rewrite fetchRiskAssessment_partitions. unfold partitions. cbn.
        by rewrite saveAllResponses_live.
      * unfold Multi.loadQuestionsForCancerType,
          Multi.loadQuestionsForCancerType_with.
        destruct (0 <? _).
        -- by intros [= <-].
        -- intros Hnext.
           by rewrite (loadNextCancerType_partitions _ _ _ _ Hnext).
    + intros [= <-]. unfold partitions. cbn.
      by rewrite saveAllResponses_live.
  - destruct (0 <? _).
    + apply loadNextCancerType_partitions.
    + intros [= <-]. unfold partitions. cbn.
      change (partitions (Multi.fetchRiskAssessment state
                (Multi.calculateRiskScore newResponses
                   (Multi.scoredQuestions state))
                (emit (ScorerCall newResponses
                         (Multi.scoredQuestions state))
                   (saveAllResponses newResponses run)))
              = partitions run).
      rewrite fetchRiskAssessment_partitions. unfold partitions. cbn.
      by rewrite saveAllResponses_live.
Qed.

Lemma handleResponse_partitions (fuel : nat) (state : Multi.QuizState)
    (questionId : Z) (answer : response) (run run' : Run Multi.QuizState) :
  Multi.handleResponse fuel state questionId answer run = Some run' →
  partitions run' = partitions run.
Proof.
  unfold Multi.handleResponse. destruct (at_index _ _) as [q|].
  - destruct (inRange _ _).
    + by intros [= <-].
    + intros Hend. by rewrite (endOfSet_partitions _ _ _ _ _ Hend).
  - by intros [= <-].
Qed.

(** In every run of a session the live state holds the partitions that
    were fetched at the start. *)
Lemma reachable_partitions (generalData specializedData : list Question)
    (run : Run Multi.QuizState) :
  Multi.reachable generalData specializedData run →
  partitions run = (false, generalData, specializedData).
Proof.
  induction 1 as [Hne|run run' fuel qid answer Hreach IH Hl Hc Hstep
                 |run Hreach IH].
  - done.
  - by rewrite (handleResponse_partitions _ _ _ _ _ _ Hstep).
  - unfold partitions in *. exact IH.
Qed.

(** Handlers only append to the log; [resetQuiz] leaves it as it is. *)
Lemma resetQuiz_log (state : Multi.QuizState) (run : Run Multi.QuizState) :
  log (Multi.resetQuiz state run) = log run.
Proof. done. Qed.

End MultiFacts.



(** ** The end of the general phase *)

Lemma filter_none {A} (P : A → Prop) `{∀ x, Decision (P x)} (l : list A) :
  (∀ x, x ∈ l → ¬ P x) → filter P l = [].
Proof.
  induction l as [|x l IH]; intros Hl; [done|].
  rewrite filter_cons_False by (apply Hl; left).
  apply IH. intros y Hy. apply Hl. by right.
Qed.

Lemma anyPositive_false (generalAnswers : Responses)
    (generalQuestions : list Question) :
  (∀ q r, q ∈ generalQuestions → generalAnswers !! q_id q = Some r →
          Simple.isNegative r = true) →
  Multi.anyPositive generalAnswers generalQuestions = false.
Proof.
  intros Hneg. unfold Multi.anyPositive.
  induction generalQuestions as [|q qs IH]; [done|].
  cbn [existsb]. rewrite IH.
  - destruct (generalAnswers !! q_id q) as [r|] eqn:E; [|done].
    rewrite (Hneg q r); [done|by left|done].
  - intros q' r Hq'. apply Hneg. by right.
Qed.

Section EndOfSetFacts.
Context {utils : Multi.QuizUtils} {backend : Backend}.

(** A submission whose next index is outside the active set runs the
    end-of-set chain. *)
Lemma handleResponse_endOfSet (fuel : nat) (state : Multi.QuizState)
    (questionId : Z) (answer : response) (run : Run Multi.QuizState)
    (currentQuestion : Question) :
  at_index (Multi.questions state) (Multi.currentQuestionIndex state)
    = Some currentQuestion →
  resolveNext_spec currentQuestion answer (Multi.questions state)
                   (Multi.currentQuestionIndex state) = EndOfSet →
  Multi.handleResponse fuel state questionId answer run =
  Multi.endOfSet fuel state
    (<[questionId := answer]> (Multi.responses state))
    (setState (Multi.with_responses
                 (<[questionId := answer]> (Multi.responses state))) run).
Proof.
  intros Hcur Hend. unfold Multi.handleResponse. rewrite Hcur.
  rewrite <- nextQuestionIndex_resolveNext in Hend.
  by destruct (inRange _ _).
Qed.

Lemma fetchRiskAssessment_log (state : Multi.QuizState) (score : number)
    (run : Run Multi.QuizState) :
  log (Multi.fetchRiskAssessment state score run) =
  log run ++ [QueryRiskAssessment score
                (cancerTypeFilter (head (Multi.detectedCancerTypes state)))].
Proof.
  unfold Multi.fetchRiskAssessment.
  by destruct (risk_assessments_single _ _).
Qed.

(** [loadNextCancerType] with a queue whose head has questions: the head
    becomes the current type, its questions the active set, and the
    rest stays queued. *)
Lemma loadNextCancerType_next (fuel : nat) (state : Multi.QuizState)
    (run : Run Multi.QuizState) (nextType : string)
    (remainingQueue : list string) :
  Multi.cancerTypesQueue state = nextType :: remainingQueue →
  filter (λ q, category q = Some nextType)
         (Multi.specializedQuestions state) ≠ [] →
  Multi.loadNextCancerType (S fuel) state run =
  Some (setState (λ prev,
          Multi.with_quizPhase specialized
            (Multi.with_currentQuestionIndex 0
               (Multi.with_questions
                  (filter (λ q, category q = Some nextType)
                          (Multi.specializedQuestions state))
                  (Multi.with_cancerTypesQueue remainingQueue
                     (Multi.with_currentCancerType (Some nextType)
                        prev))))) run).
Proof.
  intros Hqueue Hne. cbn [Multi.loadNextCancerType]. rewrite Hqueue.
  unfold Multi.loadQuestionsForCancerType_with.
  destruct (filter _ _) as [|q qs]; [done|].
  unfold len. cbn [length]. by rewrite (proj2 (Z.ltb_lt 0 _)) by lia.
Qed.

(** With a queue whose head has no questions, it calls itself on the
    unchanged snapshot and returns for no amount of fuel. *)
Lemma loadNextCancerType_no_return (fuel : nat) (state : Multi.QuizState)
    (run : Run Multi.QuizState) (nextType : string)
    (remainingQueue : list string) :
  Multi.cancerTypesQueue state = nextType :: remainingQueue →
  filter (λ q, category q = Some nextType)
         (Multi.specializedQuestions state) = [] →
  Multi.loadNextCancerType fuel state run = None.
Proof.
  intros Hqueue Hnil. revert run.
  induction fuel as [|fuel IH]; intros run; [done|].
  cbn [Multi.loadNextCancerType]. rewrite Hqueue.
  unfold Multi.loadQuestionsForCancerType_with. rewrite Hnil.
  apply IH.
Qed.

(** What the end-of-set chain leaves behind is a completed quiz or the
    specialized phase. *)
Lemma loadNextCancerType_outcome (fuel : nat) (state : Multi.QuizState)
    (run run' : Run Multi.QuizState) :
  Multi.loadNextCancerType fuel state run = Some run' →
  Multi.quizCompleted (live run') = true ∨
  Multi.quizPhase (live run') = specialized.
Proof.
  revert run. induction fuel as [|fuel IH]; intros run; [done|].
  cbn [Multi.loadNextCancerType].
  destruct (Multi.cancerTypesQueue state) as [|nextType remainingQueue].
  - intros [= <-]. by left.
  - unfold Multi.loadQuestionsForCancerType_with. destruct (0 <? _).
    + intros [= <-]. by right.
    + apply IH.
Qed.

Lemma endOfSet_outcome (fuel : nat) (state : Multi.QuizState)
    (newResponses : Responses) (run run' : Run Multi.QuizState) :
  Multi.endOfSet fuel state newResponses run = Some run' →
  Multi.quizCompleted (live run') = true ∨
  Multi.quizPhase (live run') = specialized.
Proof.
  unfold Multi.endOfSet. destruct (Multi.quizPhase state).
  - unfold Multi.processGeneralPhaseCompletion.
    destruct (Multi.analyzeGeneralResponses _ _) as [detectedTypes [|]];
      cbn [negb].
    + destruct (if 0 <? _ then _ else _) as [|first rest].
      * intros [= <-]. by left.
      * unfold Multi.loadQuestionsForCancerType,
          Multi.loadQuestionsForCancerType_with.
        destruct (0 <? _).
        -- intros [= <-]. by right.
        -- apply loadNextCancerType_outcome.
    + intros [= <-]. by left.
  - destruct (0 <? _).
    + apply loadNextCancerType_outcome.
    + intros [= <-]. by left.
Qed.

(** While a session is in the general phase and not completed, nothing is
    queued and nothing detected. *)
Lemma reachable_general_fresh (generalData specializedData : list Question)
    (run : Run Multi.QuizState) :
  Multi.reachable generalData specializedData run →
  Multi.quizCompleted (live run) = false →
  Multi.quizPhase (live run) = general →
  Multi.cancerTypesQueue (live run) = [] ∧
  Multi.detectedCancerTypes (live run) = [].
Proof.
  induction 1 as [Hne|run run' fuel qid answer Hreach IH Hl Hc Hstep
                 |run Hreach IH]; [done| |done].
  revert Hstep. unfold Multi.handleResponse.
  destruct (at_index _ _) as [q|].
  - destruct (inRange _ _).
    + intros [= <-] _. exact (IH Hc).
    + intros Hend Hc' Hg.
      destruct (endOfSet_outcome _ _ _ _ _ Hend); congruence.
  - intros [= <-] _. exact (IH Hc).
Qed.

End EndOfSetFacts.

(** C6.  When the general phase ends and every general answer is missing
    or negative ("No", or empty), [anyPositive] is false and the quiz
    completes on the healthy path: the answers are handed to the response
    store, the scorer is not called and no risk assessment is queried;
    score and risk assessment stay as they were. *)
Theorem all_negative_reaches_healthy_terminal {builtins : Builtins}
    {backend : Backend} (fuel : nat) (state : Multi.QuizState)
    (questionId : Z) (answer : response) (run : Run Multi.QuizState)
    (currentQuestion : Question) :
  Multi.quizPhase state = general →
  at_index (Multi.questions state) (Multi.currentQuestionIndex state)
    = Some currentQuestion →
  resolveNext_spec currentQuestion answer (Multi.questions state)
                   (Multi.currentQuestionIndex state) = EndOfSet →
  let newResponses := <[questionId := answer]> (Multi.responses state) in
  (∀ q r, q ∈ Multi.generalQuestions state →
          newResponses !! q_id q = Some r → Simple.isNegative r = true) →
  Multi.anyPositive newResponses (Multi.generalQuestions state) = false ∧
  ∃ run',
    Multi.handleResponse (utils := Multi.specUtils)
      fuel state questionId answer run = Some run' ∧
    Multi.quizCompleted (live run') = true ∧
    Multi.hasPositiveResponses (live run') = false ∧
    Multi.responses (live run') = newResponses ∧
    Multi.score (live run') = Multi.score (live run) ∧
    Multi.riskAssessment (live run') = Multi.riskAssessment (live run) ∧
    log run' =
      log run ++ [match getUser with
                  | Some user => InsertResponses user newResponses
                  | None => NavigateLogin
                  end].
Proof.
  intros Hphase Hcur Hend newResponses Hneg.
  pose proof (anyPositive_false _ _ Hneg) as Hany.
  split; [done|].
  rewrite (handleResponse_endOfSet _ _ _ _ _ _ Hcur Hend).
  fold newResponses. unfold Multi.endOfSet. rewrite Hphase.
  unfold Multi.processGeneralPhaseCompletion.
  cbn [Multi.analyzeGeneralResponses Multi.specUtils Multi.detect].
  rewrite Hany. cbn [negb].
  eexists. split; [reflexivity|].
  unfold saveAllResponses. by destruct getUser.
Qed.

Lemma all_negative_reaches_healthy_terminal_witness :
  let builtins := sampleBuiltins in
  let backend := sampleBackend in
  let g1 := booleanQuestion 1 10 "general" (Some [("skin", JS.of_Z 5)]) None in
  let r0 := loaded (utils := Multi.specUtils) [g1] [] in
  ∃ run',
    Multi.handleResponse (utils := Multi.specUtils)
      0 (live r0) 1 (RStr "No") r0 = Some run' ∧
    Multi.quizCompleted (live run') = true ∧
    Multi.hasPositiveResponses (live run') = false ∧
    log run' = [InsertResponses "u1" {[ 1 := RStr "No" ]}].
Proof.
  intros builtins backend g1 r0.
  destruct (all_negative_reaches_healthy_terminal
              0 (live r0) 1 (RStr "No") r0 g1) as (_ & run' & Hrun).
  - reflexivity.
  - reflexivity.
  - reflexivity.
  - intros q r Hq. apply list_elem_of_In in Hq. destruct Hq as [<-|[]].
    vm_compute. by intros [= <-].
  - exists run'. destruct Hrun as (? & ? & ? & _ & _ & _ & ?). done.
Defined.

(** The claim C2 fails: one general question without hints answered
    "Yes".  The detector returns ["general"]; the quiz then completes on
    the scored path: the scorer is called, a risk assessment is queried,
    and the results view (positive responses) is what is shown. *)
Lemma general_only_detection_counterexample :
  let builtins := sampleBuiltins in
  let backend := sampleBackend in
  let utils := Multi.specUtils in
  let g1 := booleanQuestion 1 10 "general" None None in
  let s1 := rangeQuestion 10 20 "skin" 0 10 in
  let r0 := loaded [g1] [s1] in
  Multi.detect {[ 1 := RStr "Yes" ]} [g1] = (["general"], true) ∧
  ∃ run',
    Multi.handleResponse 1 (live r0) 1 (RStr "Yes") r0 = Some run' ∧
    Multi.quizCompleted (live run') = true ∧
    Multi.hasPositiveResponses (live run') = true ∧
    Multi.riskAssessment (live run') ≠ None ∧
    log run' = [InsertResponses "u1" ∅; ScorerCall ∅ [g1];
                QueryRiskAssessment (JS.of_Z 0) None].
Proof.
  intros builtins backend utils g1 s1 r0. split; [by vm_compute|].
  eexists. split; [by vm_compute|]. by vm_compute.
Qed.

(** C2, amended.  In any session, when the general phase ends with some
    answer that is neither empty nor "No" while no accumulator is
    positive, the detector returns exactly ["general"]; no specialized
    question carries that label, and the quiz completes on the scored
    path: the scorer is called and a risk assessment is queried without a
    cancer-type filter, and the state is marked as having positive
    responses, so the results view is shown, not the healthy one. *)
Theorem general_only_detection_is_scored {builtins : Builtins}
    {backend : Backend} (fuel : nat)
    (generalData specializedData : list Question)
    (run : Run Multi.QuizState) (questionId : Z) (answer : response)
    (currentQuestion : Question) :
  let state := live run in
  let newResponses := <[questionId := answer]> (Multi.responses state) in
  Multi.reachable (utils := Multi.specUtils)
    generalData specializedData run →
  (∀ q, q ∈ specializedData → category q ≠ Some "general") →
  Multi.quizCompleted state = false →
  Multi.quizPhase state = general →
  at_index (Multi.questions state) (Multi.currentQuestionIndex state)
    = Some currentQuestion →
  resolveNext_spec currentQuestion answer (Multi.questions state)
                   (Multi.currentQuestionIndex state) = EndOfSet →
  Multi.anyPositive newResponses generalData = true →
  JS.is_zero (Multi.maxAccumulator
                (Multi.accumulators newResponses generalData)) = true →
  Multi.candidates newResponses generalData = ["general"] ∧
  ∃ run' answers questions score,
    Multi.handleResponse (utils := Multi.specUtils)
      (S fuel) state questionId answer run = Some run' ∧
    Multi.quizCompleted (live run') = true ∧
    Multi.hasPositiveResponses (live run') = true ∧
    Multi.detectedCancerTypes (live run') = ["general"] ∧
    log run' =
      log run ++ [match getUser with
                  | Some user => InsertResponses user answers
                  | None => NavigateLogin
                  end;
                  ScorerCall answers questions;
                  QueryRiskAssessment score None].
Proof.
  intros state newResponses Hreach Hspec Hc Hphase Hcur Hend Hany Hzero.
  destruct (reachable_general_fresh _ _ _ Hreach Hc Hphase)
    as [Hqueue Hdetected].
  pose proof (reachable_partitions _ _ _ Hreach) as Hp.
  unfold partitions in Hp. injection Hp as _ Hg Hs.
  fold state in Hqueue, Hdetected, Hg, Hs.
  assert (Multi.candidates newResponses generalData = ["general"])
    as Hcand.
  { unfold Multi.candidates. by rewrite Hzero. }
  split; [done|].
  rewrite (handleResponse_endOfSet _ _ _ _ _ _ Hcur Hend).
  fold newResponses. unfold Multi.endOfSet. rewrite Hphase.
  unfold Multi.processGeneralPhaseCompletion.
  cbn [Multi.analyzeGeneralResponses Multi.specUtils Multi.detect].
  rewrite Hg, Hany, Hcand. cbn [negb].
  change (filter (λ t : string, t ≠ "general") ["general"])
    with (@nil string).
  change (0 <? len (@nil string)) with false. cbv beta iota zeta.
  unfold Multi.loadQuestionsForCancerType,
    Multi.loadQuestionsForCancerType_with.
  rewrite Hs, (filter_none _ _ Hspec).
  change (0 <? len (@nil Question)) with false. cbv beta iota zeta.
  cbn [Multi.loadNextCancerType]. rewrite Hqueue.
  eexists _, (Multi.responses state), _, _. split; [reflexivity|].
  cbn [live setState].
  repeat split.
  - unfold Multi.fetchRiskAssessment, saveAllResponses.
    by destruct (risk_assessments_single _ _), getUser.
  - unfold Multi.fetchRiskAssessment, saveAllResponses.
    by destruct (risk_assessments_single _ _), getUser.
  - cbn [log setState]. rewrite fetchRiskAssessment_log. cbn [log emit].
    rewrite saveAllResponses_log. cbn [log setState].
    rewrite Hdetected. cbn [head cancerTypeFilter].
    by rewrite <- !app_assoc.
Qed.

Lemma general_only_detection_is_scored_witness :
  let builtins := sampleBuiltins in
  let backend := sampleBackend in
  let g1 := booleanQuestion 1 10 "general" None None in
  let s1 := rangeQuestion 10 20 "skin" 0 10 in
  let r0 := loaded (utils := Multi.specUtils) [g1] [s1] in
  Multi.candidates {[ 1 := RStr "Yes" ]} [g1] = ["general"] ∧
  ∃ run',
    Multi.handleResponse (utils := Multi.specUtils)
      1 (live r0) 1 (RStr "Yes") r0 = Some run' ∧
    Multi.hasPositiveResponses (live run') = true.
Proof.
  intros builtins backend g1 s1 r0.
  destruct (general_only_detection_is_scored
              0 [g1] [s1] r0 1 (RStr "Yes") g1)
    as (Hcand & run' & ? & ? & ? & Hrun); try reflexivity.
  - by constructor.
  - intros q Hq. apply list_elem_of_In in Hq. destruct Hq as [<-|[]].
    vm_compute. discriminate.
  - split; [exact Hcand|]. exists run'.
    destruct Hrun as (? & _ & ? & _). done.
Defined.

(** ** Draining the queue of detected cancer types *)

Section QueueFacts.
Context {utils : Multi.QuizUtils} {backend : Backend}.

(** At the end of the general phase, a first detected type that has
    questions becomes the current type, the other detected types are
    queued in their order, and the specialized phase starts on its
    questions. *)
Lemma general_phase_starts_first_type (fuel : nat)
    (state : Multi.QuizState) (responses : Responses)
    (run : Run Multi.QuizState) (first : string) (rest : list string) :
  Multi.analyzeGeneralResponses responses (Multi.generalQuestions state)
    = (first :: rest, true) →
  "general" ∉ first :: rest →
  filter (λ q, category q = Some first)
         (Multi.specializedQuestions state) ≠ [] →
  Multi.processGeneralPhaseCompletion fuel state responses run =
  Some (setState (λ prev,
          Multi.with_quizPhase specialized
            (Multi.with_currentQuestionIndex 0
               (Multi.with_questions
                  (filter (λ q, category q = Some first)
                          (Multi.specializedQuestions state))
                  (Multi.with_hasPositiveResponses true
                     (Multi.with_currentCancerType (Some first)
                        (Multi.with_cancerTypesQueue rest
                           (Multi.with_detectedCancerTypes (first :: rest)
                              prev))))))) run).
Proof.
  intros Han Hgen Hne. unfold Multi.processGeneralPhaseCompletion.
  rewrite Han. cbn [negb].
  assert (filter (λ t : string, t ≠ "general") (first :: rest)
          = first :: rest) as ->.
  { clear -Hgen. induction (first :: rest) as [|t l IH]; [done|].
    rewrite filter_cons_True by (intros ->; apply Hgen; left).
    f_equal. apply IH. intros Hin. apply Hgen. by right. }
  assert ((0 <? len (first :: rest)) = true) as ->.
  { unfold len. cbn [length]. apply Z.ltb_lt. lia. }
  unfold Multi.loadQuestionsForCancerType,
    Multi.loadQuestionsForCancerType_with.
  destruct (filter _ (Multi.specializedQuestions state)) as [|q qs];
    [done|].
  unfold len. cbn [length]. by rewrite (proj2 (Z.ltb_lt 0 _)) by lia.
Qed.

(** A first detected type without questions: [loadNextCancerType] reads
    the queue of the snapshot, which in the general phase is still
    empty, and completes the quiz; the types just queued stay queued and
    are never visited. *)
Lemma general_phase_first_type_without_questions (fuel : nat)
    (state : Multi.QuizState) (responses : Responses)
    (run : Run Multi.QuizState) (first : string) (rest : list string) :
  Multi.analyzeGeneralResponses responses (Multi.generalQuestions state)
    = (first :: rest, true) →
  "general" ∉ first :: rest →
  filter (λ q, category q = Some first)
         (Multi.specializedQuestions state) = [] →
  Multi.cancerTypesQueue state = [] →
  ∃ run',
    Multi.processGeneralPhaseCompletion (S fuel) state responses run
      = Some run' ∧
    Multi.quizCompleted (live run') = true ∧
    Multi.cancerTypesQueue (live run') = rest ∧
    Multi.currentCancerType (live run') = Some first ∧
    Multi.quizPhase (live run') = Multi.quizPhase (live run) ∧
    Multi.questions (live run') = Multi.questions (live run).
Proof.
  intros Han Hgen Hnil Hqueue. unfold Multi.processGeneralPhaseCompletion.
  rewrite Han. cbn [negb].
  assert (filter (λ t : string, t ≠ "general") (first :: rest)
          = first :: rest) as ->.
  { clear -Hgen. induction (first :: rest) as [|t l IH]; [done|].
    rewrite filter_cons_True by (intros ->; apply Hgen; left).
    f_equal. apply IH. intros Hin. apply Hgen. by right. }
  assert ((0 <? len (first :: rest)) = true) as ->.
  { unfold len. cbn [length]. apply Z.ltb_lt. lia. }
  unfold Multi.loadQuestionsForCancerType,
    Multi.loadQuestionsForCancerType_with.
  rewrite Hnil. change (0 <? len (@nil Question)) with false.
  cbv beta iota zeta. cbn [Multi.loadNextCancerType]. rewrite Hqueue.
  eexists. split; [reflexivity|].
  unfold Multi.fetchRiskAssessment, saveAllResponses.
  by destruct (risk_assessments_single _ _), getUser.
Qed.

End QueueFacts.

(** C1, at an input where the code departs from it.  Two types are
    detected, skin before kidney; no specialized question is about skin,
    one is about kidney.  When the general phase ends the quiz completes at
    once: kidney is left in the queue, its question never becomes active. *)
Theorem queue_draining_stops_at_empty_first_type :
  let builtins := sampleBuiltins in
  let backend := sampleBackend in
  let utils := Multi.specUtils in
  let g1 := booleanQuestion 1 10 "general"
              (Some [("skin", JS.of_Z 5); ("kidney", JS.of_Z 3)]) None in
  let k1 := rangeQuestion 20 10 "kidney" 0 10 in
  let r0 := loaded [g1] [k1] in
  Multi.analyzeGeneralResponses {[ 1 := RStr "Yes" ]} [g1]
    = (["skin"; "kidney"], true) ∧
  ∃ run',
    Multi.handleResponse 2 (live r0) 1 (RStr "Yes") r0 = Some run' ∧
    Multi.quizCompleted (live run') = true ∧
    Multi.detectedCancerTypes (live run') = ["skin"; "kidney"] ∧
    Multi.currentCancerType (live run') = Some "skin" ∧
    Multi.cancerTypesQueue (live run') = ["kidney"] ∧
    Multi.quizPhase (live run') = general ∧
    Multi.questions (live run') = [g1].
Proof.
  intros builtins backend utils g1 k1 r0. split; [by vm_compute|].
  eexists. split; [by vm_compute|]. by vm_compute.
Qed.

(** In the specialized phase the same situation does not return at all:
    after the skin questions, with kidney (no questions) and brain queued,
    the submission that ends the set needs more than any given number of
    calls. *)
Example queue_draining_empty_queued_type_no_return (fuel : nat) :
  let builtins := sampleBuiltins in
  let backend := sampleBackend in
  let utils := Multi.specUtils in
  let g1 := booleanQuestion 1 10 "general"
              (Some [("skin", JS.of_Z 5); ("kidney", JS.of_Z 3);
                     ("brain", JS.of_Z 1)]) None in
  let s1 := rangeQuestion 10 10 "skin" 0 10 in
  let b1 := rangeQuestion 30 10 "brain" 0 10 in
  let r0 := loaded [g1] [s1; b1] in
  ∃ r1,
    Multi.handleResponse 2 (live r0) 1 (RStr "Yes") r0 = Some r1 ∧
    Multi.questions (live r1) = [s1] ∧
    Multi.cancerTypesQueue (live r1) = ["kidney"; "brain"] ∧
    Multi.handleResponse fuel (live r1) 10 (RNum (JS.of_Z 5)) r1 = None.
Proof.
  intros builtins backend utils g1 s1 b1 r0.
  eexists. split; [by vm_compute|]. split; [by vm_compute|].
  split; [by vm_compute|].
  unfold Multi.handleResponse.
  match goal with
  | |- context [at_index ?l ?i] =>
      change (at_index l i) with (Some s1)
  end.
  cbv beta iota zeta.
  match goal with
  | |- context [inRange ?l ?i] =>
      let b := eval vm_compute in (inRange l i) in
      change (inRange l i) with b
  end.
  cbv beta iota.
  unfold Multi.endOfSet.
  match goal with
  | |- context [Multi.quizPhase ?s] =>
      change (Multi.quizPhase s) with specialized
  end.
  cbv beta iota.
  match goal with
  | |- context [0 <? len ?l] => change (0 <? len l) with true
  end.
  cbv beta iota.
  eapply loadNextCancerType_no_return; by vm_compute.
Qed.

(** ** The single-condition component *)

Section SimpleFacts.
Context {builtins : Builtins} {backend : Backend}.

(** Its detector names "general" when no accumulator is positive. *)
Lemma simple_detectType_general (generalQuestions : list Question)
    (generalResponses : Responses) :
  JS.is_zero (Multi.maxAccumulator
                (Multi.accumulators generalResponses generalQuestions))
    = true →
  Simple.detectType generalQuestions generalResponses = Some "general".
Proof.
  unfold Simple.detectType, Multi.maxAccumulator, Multi.accumulators.
  destruct (fold_left Simple.pickMax _ _) as [maxScore detectedType].
  cbn [fst]. by intros ->.
Qed.

(** With "general" detected and no specialized question of that label,
    it too saves, scores and completes. *)
Lemma simple_general_detection_is_scored (state : Simple.QuizState)
    (generalResponses : Responses) (run : Run Simple.QuizState) :
  Simple.detectType (Simple.generalQuestions state) generalResponses
    = Some "general" →
  (∀ q, q ∈ Simple.specializedQuestions state →
        category q ≠ Some "general") →
  let run' := Simple.analyzeGeneralResponses state generalResponses run in
  Simple.quizCompleted (live run') = true ∧
  Simple.detectedCancerType (live run') = Some "general" ∧
  ∃ questions score filter_,
    log run' =
      log run ++ [match getUser with
                  | Some user => InsertResponses user generalResponses
                  | None => NavigateLogin
                  end;
                  ScorerCall generalResponses questions;
                  QueryRiskAssessment score filter_].
Proof.
  intros Hdet Hspec. unfold Simple.analyzeGeneralResponses.
  rewrite Hdet, filter_none; last first.
  { intros q Hq Hsame. apply (Hspec q Hq).
    destruct (category q); simpl in Hsame; by subst. }
  change (0 <? len (@nil Question)) with false. cbv beta iota zeta.
  unfold Simple.calculateRiskScore, saveAllResponses.
  destruct (risk_assessments_single _ _), getUser; cbn;
    (split; [done|]); (split; [done|]); eexists _, _, _;
    by rewrite <- !app_assoc.
Qed.

(** Its submission handler resolves the next index in the same way. *)
Lemma simple_handleResponse_resolution (state : Simple.QuizState)
    (questionId : Z) (answer : response) (run : Run Simple.QuizState)
    (currentQuestion : Question) (i : Z) :
  at_index (Simple.questions state) (Simple.currentQuestionIndex state)
    = Some currentQuestion →
  resolveNext_spec currentQuestion answer (Simple.questions state)
                   (Simple.currentQuestionIndex state) = Index i →
  Simple.handleResponse state questionId answer run =
  setState (Simple.setCurrentQuestionIndex i)
    (setState (Simple.setResponses
                 (<[questionId := answer]> (Simple.responses state))) run).
Proof.
  intros Hcur Hres. unfold Simple.handleResponse. rewrite Hcur.
  rewrite <- nextQuestionIndex_resolveNext in Hres.
  destruct (inRange _ _); [|done]. by injection Hres as ->.
Qed.

(** Its reset clears the same cells and makes no external call. *)
Lemma simple_resetQuiz (state : Simple.QuizState)
    (run : Run Simple.QuizState) :
  let run' := Simple.resetQuiz state run in
  Simple.quizPhase (live run') = general ∧
  Simple.responses (live run') = ∅ ∧
  Simple.detectedCancerType (live run') = None ∧
  Simple.quizCompleted (live run') = false ∧
  Simple.score (live run') = JS.zero ∧
  Simple.riskAssessment (live run') = None ∧
  Simple.currentQuestionIndex (live run') = 0 ∧
  Simple.questions (live run') = Simple.generalQuestions state ∧
  Simple.generalQuestions (live run') = Simple.generalQuestions (live run) ∧
  Simple.specializedQuestions (live run')
    = Simple.specializedQuestions (live run) ∧
  log run' = log run.
Proof. done. Qed.

End SimpleFacts.

(** * Further properties *)

(** ** The scorer: what the answers can and cannot do to the score *)

Section ScorerBounds.
Context {builtins : Builtins}.

(** X1.  The score reads the answers of the questions it ranges over and no
    others. *)
Theorem totalScore_only_reads_its_questions (allResponses other : Responses)
    (qs : list Question) :
  (∀ q, q ∈ qs → allResponses !! q_id q = other !! q_id q) →
  totalScore allResponses qs = totalScore other qs.
Proof.
  unfold totalScore. generalize JS.zero.
  induction qs as [|q qs IH]; intros total Hagree; [done|].
  cbn [fold_left].
  assert (scoreStep allResponses total q = scoreStep other total q) as ->.
  { unfold scoreStep, contribution. by rewrite (Hagree q) by left. }
  apply IH. intros q' Hq'. apply Hagree. by right.
Qed.


Lemma contribution_select (allResponses : Responses) (question : Question)
    (answer : response) (choices : list string) :
  allResponses !! q_id question = Some answer →
  falsy answer = false →
  question_type question = "select" →
  opt_options (options question) = Some choices →
  contribution allResponses question =
  if (0 <? len choices) && (0 <=? indexOf choices (toString answer)) then
    Some (JS.Math_round
            (JS.mul (JS.div (JS.of_Z (indexOf choices (toString answer)))
                            (JS.of_Z (len choices - 1)))
                    (weight question)))
  else None.
Proof.
  intros Hresp Htruthy Ht Hopts. unfold contribution.
  rewrite Hresp, Htruthy, Ht, Hopts.
  rewrite !bool_decide_eq_false_2 by done.
  rewrite bool_decide_eq_true_2 by done. cbv beta iota zeta.
  by destruct (0 <? len choices), (0 <=? indexOf _ _).
Qed.









(** X5.  On a select question with at least two choices, the first choice
    adds nothing and the last one adds the weight, rounded. *)
Theorem select_contribution_endpoints (allResponses : Responses)
    (question : Question) (answer : response) (choices : list string)
    (wq : Q) :
  allResponses !! q_id question = Some answer →
  falsy answer = false →
  question_type question = "select" →
  opt_options (options question) = Some choices →
  (2 ≤ length choices)%nat →
  weight question = JS.Fin wq →
  (choices !! 0%nat = Some (toString answer) →
   added allResponses question = JS.zero) ∧
  (choices !! (length choices - 1)%nat = Some (toString answer) →
   (∀ j, (j < length choices - 1)%nat →
         choices !! j ≠ Some (toString answer)) →
   added allResponses question = JS.Math_round (weight question)).
Proof.
  intros Hresp Htruthy Ht Hopts Hlen Hw. unfold added.
  rewrite (contribution_select _ _ _ _ Hresp Htruthy Ht Hopts).
  assert ((0 <? len choices) = true) as ->.
  { apply Z.ltb_lt. unfold len. lia. }
  assert ((inject_Z (len choices - 1) ?= 0)%Q = Gt) as Hpos.
  { apply Qgt_alt. change 0%Q with (inject_Z 0). rewrite <- Zlt_Qlt.
    unfold len. lia. }
  assert (¬ (inject_Z (len choices - 1) == 0)%Q) as Hne.
  { intros E. apply Qeq_alt in E. congruence. }
  split.
  - intros Hfirst. rewrite (indexOf_first _ _ 0%nat Hfirst) by lia.
    cbn [andb Z.leb Z.of_nat Z.compare default].
    unfold JS.of_Z. cbn [JS.div]. rewrite Hpos, Hw. cbn [JS.mul].
    rewrite (round_proper _ 0%Q); [done|].
    change (inject_Z 0) with 0%Q. field. done.
  - intros Hlast Hfirst.
    rewrite (indexOf_first _ _ _ Hlast Hfirst).
    assert ((0 <=? Z.of_nat (length choices - 1)) = true) as ->
      by (apply Z.leb_le; lia).
    cbn [andb default].
    replace (Z.of_nat (length choices - 1)) with (len choices - 1)
      by (unfold len; lia).
    unfold JS.of_Z. cbn [JS.div]. rewrite Hpos, Hw. cbn [JS.mul].
    apply round_proper. field. done.
Qed.

End ScorerBounds.

(** ** The detector of the single-condition component *)

Lemma addHint_labels (scores : list (string * number))
    (hint : string * number) :
  (Simple.addHint scores hint).*1 = scores.*1.
Proof.
  unfold Simple.addHint. induction scores as [|e scores IH]; [done|].
  cbn [map fmap list_fmap] in *. rewrite IH. by case_bool_decide.
Qed.

Lemma accumulate_labels (generalResponses : Responses)
    (scores : list (string * number)) (question : Question) :
  (Simple.accumulate generalResponses scores question).*1 = scores.*1.
Proof.
  unfold Simple.accumulate.
  destruct (generalResponses !! q_id question) as [r|]; [|done].
  destruct (Simple.isNegative r); [done|].
  destruct (cancer_type_hints (options question)) as [hints|]; [|done].
  revert scores. induction hints as [|h hints IH]; intros scores; [done|].
  cbn [fold_left]. by rewrite IH, addHint_labels.
Qed.

Lemma accumulated_labels (generalResponses : Responses)
    (generalQuestions : list Question) (scores : list (string * number)) :
  (fold_left (Simple.accumulate generalResponses) generalQuestions scores).*1
  = scores.*1.
Proof.
  revert scores.
  induction generalQuestions as [|q qs IH]; intros scores; [done|].
  cbn [fold_left]. by rewrite IH, accumulate_labels.
Qed.

(** The search for the highest score keeps its start or ends on a label of
    the list. *)
Lemma pickMax_label (scores : list (string * number)) (m0 : number)
    (d0 : option string) :
  fold_left Simple.pickMax scores (m0, d0) = (m0, d0) ∨
  ∃ m t, fold_left Simple.pickMax scores (m0, d0) = (m, Some t) ∧
         t ∈ scores.*1.
Proof.
  revert m0 d0. induction scores as [|e scores IH]; intros m0 d0;
    [by left|].
  cbn [fold_left]. unfold Simple.pickMax at 2 4. cbn [fst snd].
  destruct (JS.gtb e.2 m0).
  - right. destruct (IH e.2 (Some e.1)) as [->|(m & t & -> & Ht)].
    + eexists _, _. split; [done|]. cbn. left.
    + eexists _, _. split; [done|]. cbn. by right.
  - destruct (IH m0 d0) as [->|(m & t & -> & Ht)]; [by left|].
    right. eexists _, _. split; [done|]. cbn. by right.
Qed.

(** X6.  The detector always names a type, and it is one of the five known
    labels or "general", whatever labels the hints of the questions
    carry. *)
Theorem detectType_known_label (generalQuestions : list Question)
    (generalResponses : Responses) :
  ∃ t, Simple.detectType generalQuestions generalResponses = Some t ∧
       t ∈ ["skin"; "kidney"; "brain"; "oral"; "breast"; "general"].
Proof.
  unfold Simple.detectType.
  pose proof (accumulated_labels generalResponses generalQuestions
                Simple.cancerTypeScores0) as Hlabels.
  destruct (pickMax_label
              (fold_left (Simple.accumulate generalResponses)
                         generalQuestions Simple.cancerTypeScores0)
              JS.zero None) as [->|(m & t & -> & Ht)].
  - exists "general". cbn. split; [done|].
    apply list_elem_of_In. cbn. tauto.
  - rewrite Hlabels in Ht. destruct (JS.is_zero m).
    + exists "general". split; [done|]. apply list_elem_of_In. cbn. tauto.
    + exists t. split; [done|]. apply list_elem_of_In in Ht.
      apply list_elem_of_In. cbn in *. tauto.
Qed.

(** X7.  When every general answer is missing, empty, zero or "No", the
    detector names "general". *)
Theorem detectType_all_negative (generalQuestions : list Question)
    (generalResponses : Responses) :
  (∀ q r, q ∈ generalQuestions →
          generalResponses !! q_id q = Some r →
          Simple.isNegative r = true) →
  Simple.detectType generalQuestions generalResponses = Some "general".
Proof.
  intros Hneg. unfold Simple.detectType.
  assert (fold_left (Simple.accumulate generalResponses) generalQuestions
            Simple.cancerTypeScores0 = Simple.cancerTypeScores0) as ->;
    [|done].
  generalize Simple.cancerTypeScores0.
  induction generalQuestions as [|q qs IH]; intros scores; [done|].
  cbn [fold_left].
  assert (Simple.accumulate generalResponses scores q = scores) as ->.
  { unfold Simple.accumulate.
    destruct (generalResponses !! q_id q) as [r|] eqn:E; [|done].
    by rewrite (Hneg q r) by (done || left). }
  apply IH. intros q' r Hq'. apply Hneg. by right.
Qed.




(** ** Branching *)


(** ** Sessions of the multi-condition component *)

Section SessionFacts.
Context {utils : Multi.QuizUtils} {backend : Backend}.

(** The two ways [loadNextCancerType] returns. *)
Lemma loadNextCancerType_cases (fuel : nat) (state : Multi.QuizState)
    (run run' : Run Multi.QuizState) :
  Multi.loadNextCancerType fuel state run = Some run' →
  (Multi.cancerTypesQueue state = [] ∧
   run' =
     setState (λ prev,
       Multi.with_score
         (Multi.calculateRiskScore (Multi.responses state)
            (Multi.scoredQuestions state))
         (Multi.with_allCancerTypesProcessed true
            (Multi.with_quizCompleted true prev)))
       (Multi.fetchRiskAssessment state
          (Multi.calculateRiskScore (Multi.responses state)
             (Multi.scoredQuestions state))
          (emit (ScorerCall (Multi.responses state)
                   (Multi.scoredQuestions state))
             (saveAllResponses (Multi.responses state) run)))) ∨
  (∃ nextType remainingQueue,
     Multi.cancerTypesQueue state = nextType :: remainingQueue ∧
     filter (λ q, category q = Some nextType)
            (Multi.specializedQuestions state) ≠ [] ∧
     run' =
       setState (λ prev,
         Multi.with_quizPhase specialized
           (Multi.with_currentQuestionIndex 0
              (Multi.with_questions
                 (filter (λ q, category q = Some nextType)
                         (Multi.specializedQuestions state))
                 (Multi.with_cancerTypesQueue remainingQueue
                    (Multi.with_currentCancerType (Some nextType)
                       prev))))) run).
Proof.
  destruct fuel as [|fuel]; [done|].
  destruct (Multi.cancerTypesQueue state) as [|nextType remainingQueue]
    eqn:Hqueue.
  - cbn [Multi.loadNextCancerType]. rewrite Hqueue.
    intros [= <-]. by left.
  - destruct (decide (filter (λ q, category q = Some nextType)
                        (Multi.specializedQuestions state) = []))
      as [Hnil|Hne].
    + by rewrite (loadNextCancerType_no_return _ _ _ _ _ Hqueue Hnil).
    + rewrite (loadNextCancerType_next _ _ _ _ _ Hqueue Hne).
      intros [= <-]. right. by eexists _, _.
Qed.

Lemma inRange_at_index (questions : list Question) (next : Z) :
  inRange questions next = true → is_Some (at_index questions next).
Proof.
  unfold inRange, at_index, len. intros [H1 H2]%andb_true_iff.
  apply Z.ltb_lt in H1. apply Z.leb_le in H2.
  rewrite (proj2 (Z.ltb_ge _ _)) by lia.
  apply lookup_lt_is_Some. lia.
Qed.

Lemma nonempty_at_index_0 (questions : list Question) :
  questions ≠ [] → is_Some (at_index questions 0).
Proof. by destruct questions. Qed.

Lemma len_positive_nonempty {A} (l : list A) :
  (0 <? len l) = true → l ≠ [].
Proof. by destruct l. Qed.

End SessionFacts.

(** Splits a returning [handleResponse] into its paths; [run'] becomes the
    explicit run of each path. *)
Ltac handler_cases H :=
  unfold Multi.handleResponse, Multi.endOfSet,
    Multi.processGeneralPhaseCompletion, Multi.loadQuestionsForCancerType,
    Multi.loadQuestionsForCancerType_with in H;
  repeat match type of H with
    | context [match ?x with _ => _ end] =>
        lazymatch x with
        | context [Multi.loadNextCancerType] => fail
        | _ => let E := fresh "E" in destruct x eqn:E
        end
    end;
  try discriminate H;
  try (apply loadNextCancerType_cases in H;
       destruct H as [[? H]|(? & ? & ? & ? & H)]);
  try (injection H as H); try symmetry in H; subst.

(** Reduces the fields of an updated state. *)
Ltac fields :=
  cbn [live log setState emit
       Multi.isLoading Multi.questions Multi.generalQuestions
       Multi.specializedQuestions Multi.currentQuestionIndex
       Multi.responses Multi.quizCompleted Multi.score
       Multi.riskAssessment Multi.quizPhase Multi.detectedCancerTypes
       Multi.currentCancerType Multi.allCancerTypesProcessed
       Multi.cancerTypesQueue Multi.hasPositiveResponses
       Multi.with_isLoading Multi.with_questions
       Multi.with_generalQuestions Multi.with_specializedQuestions
       Multi.with_currentQuestionIndex Multi.with_responses
       Multi.with_quizCompleted Multi.with_score
       Multi.with_riskAssessment Multi.with_quizPhase
       Multi.with_detectedCancerTypes Multi.with_currentCancerType
       Multi.with_allCancerTypesProcessed Multi.with_cancerTypesQueue
       Multi.with_hasPositiveResponses Multi.resetQuiz
       Multi.fetchQuestions Multi.initialState] in *.

(** Splits on the answers of the backend inside a run. *)
Ltac backend_cases :=
  unfold Multi.fetchRiskAssessment, saveAllResponses;
  repeat match goal with
    | |- context [risk_assessments_single ?a ?b] =>
        let R := fresh "R" in
        destruct (risk_assessments_single a b) eqn:R
    | |- context [@getUser ?b] => destruct (@getUser b)
    end.

Section SessionInvariant.
Context {utils : Multi.QuizUtils} {backend : Backend}.

Lemma reachable_nonempty (generalData specializedData : list Question)
    (run : Run Multi.QuizState) :
  Multi.reachable generalData specializedData run → generalData ≠ [].
Proof. by induction 1. Qed.

(** A session that is not completed is running, and a completed one is
    finished. *)
Lemma reachable_invariant (generalData specializedData : list Question)
    (run : Run Multi.QuizState) :
  Multi.reachable generalData specializedData run →
  (Multi.quizCompleted (live run) = false →
   running generalData specializedData (live run)) ∧
  (Multi.quizCompleted (live run) = true → finished (live run)).
Proof.
  induction 1 as [Hne|run run' fuel qid answer Hreach IH Hl Hc Hstep
                 |run Hreach IH].
  - split; [|done]. intros _. unfold running. fields.
    split; [by apply nonempty_at_index_0|done].
  - destruct IH as [IH _]. specialize (IH Hc).
    pose proof (reachable_partitions _ _ _ Hreach) as Hp.
    unfold partitions in Hp. injection Hp as _ Hg Hs.
    destruct IH as (Hidx & Hscore & Hrisk & Hphase).
    handler_cases Hstep;
      try match goal with
          | Hp : Multi.quizPhase (live run) = _ |- _ =>
              rewrite Hp in Hphase
          end.
    all: backend_cases; fields; (split; intros Hq; try congruence).
    all: try (unfold finished; fields; rewrite ?Hscore, ?Hrisk;
              first
                [ left; by repeat split
                | right; split; [by (done || apply Hphase)|];
                  split; [by eexists _, _|];
                  first [ by left
                        | right; eexists _, _; split; [done|];
                          eassumption ] ]).
    all: unfold running; fields.
    + split; [by eapply inRange_at_index|done].
    + split; [by eapply nonempty_at_index_0, len_positive_nonempty|].
      repeat split; try done. by exists s, [].
    + destruct Hphase as (_ & Hqueue & _). congruence.
    + destruct Hphase as (Hpos & t & visited & Hcur & Hdet & Hqs).
      split; [by eapply nonempty_at_index_0|].
      repeat split; try done. exists x, (visited ++ [t]).
      repeat split; try done.
      rewrite Hdet. match goal with Hqueue : Multi.cancerTypesQueue _ = _ |- _ => rewrite Hqueue end.
      by rewrite <- app_assoc.
    + done.
  - pose proof (reachable_partitions _ _ _ Hreach) as Hp.
    unfold partitions in Hp. injection Hp as _ Hg Hs.
    pose proof (reachable_nonempty _ _ _ Hreach) as Hne.
    split; [|done]. intros _. unfold running. fields.
    rewrite Hg. split; [by apply nonempty_at_index_0|done].
Qed.

End SessionInvariant.

Section SessionProperties.
Context {utils : Multi.QuizUtils} {backend : Backend}.

(** X10.  While a session is not completed, the question at the current
    index exists: the handler never meets an undefined current
    question. *)
Theorem current_question_exists (generalData specializedData : list Question)
    (run : Run Multi.QuizState) :
  Multi.reachable generalData specializedData run →
  Multi.quizCompleted (live run) = false →
  ∃ q, at_index (Multi.questions (live run))
                (Multi.currentQuestionIndex (live run)) = Some q ∧
       q ∈ Multi.questions (live run).
Proof.
  intros Hreach Hc.
  destruct (proj1 (reachable_invariant _ _ _ Hreach) Hc) as ([q Hq] & _).
  exists q. split; [done|]. unfold at_index in Hq.
  destruct (_ <? 0); [done|]. by eapply list_elem_of_lookup_2.
Qed.


(** X12.  In the specialized phase of a session the detected cancer types
    are, in order, the types already visited, the current type and the
    queued types: the queue is drained in detection order. *)
Theorem queue_is_rest_of_detected
    (generalData specializedData : list Question)
    (run : Run Multi.QuizState) :
  Multi.reachable generalData specializedData run →
  Multi.quizCompleted (live run) = false →
  Multi.quizPhase (live run) = specialized →
  ∃ t visited,
    Multi.currentCancerType (live run) = Some t ∧
    Multi.detectedCancerTypes (live run)
      = visited ++ t :: Multi.cancerTypesQueue (live run).
Proof.
  intros Hreach Hc Hs.
  destruct (proj1 (reachable_invariant _ _ _ Hreach) Hc)
    as (_ & _ & _ & Hphase).
  rewrite Hs in Hphase. destruct Hphase as (_ & t & visited & ? & ? & _).
  by exists t, visited.
Qed.

(** X13.  The risk assessment a session holds is a row the risk table
    returned for the score the session holds. *)
Theorem risk_assessment_matches_score
    (generalData specializedData : list Question)
    (run : Run Multi.QuizState) (data : RiskAssessment) :
  Multi.reachable generalData specializedData run →
  Multi.riskAssessment (live run) = Some data →
  ∃ cancer,
    risk_assessments_single (Multi.score (live run)) cancer = Some data.
Proof.
  intros Hreach Hdata.
  destruct (reachable_invariant _ _ _ Hreach) as [Hrun Hfin].
  destruct (Multi.quizCompleted (live run)).
  - destruct (Hfin eq_refl)
      as [(_ & _ & Hnone)|(_ & _ & [Hnone|(d & c & Hd & Hrow)])];
      try congruence.
    exists c. congruence.
  - destruct (Hrun eq_refl) as (_ & _ & Hnone & _). congruence.
Qed.

(** X14.  After the questions are loaded a session shows a question that
    exists, the results or the healthy result; the healthy result comes
    with score zero and no risk assessment, the results with a score the
    scorer returned. *)
Theorem session_views (generalData specializedData : list Question)
    (run : Run Multi.QuizState) :
  Multi.reachable generalData specializedData run →
  match renderedView (live run) with
  | QuestionView (Some q) => q ∈ Multi.questions (live run)
  | HealthyView =>
      Multi.score (live run) = JS.zero ∧
      Multi.riskAssessment (live run) = None
  | ResultsView =>
      ∃ saved qs,
        Multi.score (live run) = Multi.calculateRiskScore saved qs
  | _ => False
  end.
Proof.
  intros Hreach.
  pose proof (reachable_partitions _ _ _ Hreach) as Hp.
  unfold partitions in Hp. injection Hp as Hl _ _.
  destruct (reachable_invariant _ _ _ Hreach) as [Hrun Hfin].
  unfold renderedView. rewrite Hl.
  destruct (Multi.quizCompleted (live run)).
  - destruct (Hfin eq_refl) as [(-> & ? & ?)|(-> & ? & _)]; done.
  - destruct (Hrun eq_refl) as ([q Hq] & _).
    rewrite Hq. unfold at_index in Hq.
    destruct (_ <? 0); [done|].
    assert ((0 <? len (Multi.questions (live run))) = true) as ->.
    { apply lookup_lt_Some in Hq. unfold len. apply Z.ltb_lt. lia. }
    by eapply list_elem_of_lookup_2.
Qed.

(** X15.  A submission that returns has recorded the answer under the
    question id, over the answers of the state it read; an earlier answer
    to the same question is replaced and no other answer changes. *)
Theorem submission_records_answer (fuel : nat) (state : Multi.QuizState)
    (questionId : Z) (answer : response) (run run' : Run Multi.QuizState) :
  Multi.handleResponse fuel state questionId answer run = Some run' →
  Multi.responses (live run')
    = <[questionId := answer]> (Multi.responses state) ∧
  Multi.responses (live run') !! questionId = Some answer ∧
  ∀ k, k ≠ questionId →
       Multi.responses (live run') !! k = Multi.responses state !! k.
Proof.
  intros Hstep.
  assert (Multi.responses (live run')
          = <[questionId := answer]> (Multi.responses state)) as ->.
  { handler_cases Hstep; backend_cases; by fields. }
  split; [done|]. split; [apply lookup_insert_eq|].
  intros k Hk. by apply lookup_insert_ne.
Qed.

Lemma cancerTypeFilter_specific (t : option string) :
  cancerTypeFilter t ≠ Some "general" ∧ cancerTypeFilter t ≠ Some "".
Proof.
  unfold cancerTypeFilter. destruct t as [t|]; [|done].
  destruct (decide (t = "")) as [->|Hne1]; [done|].
  destruct (decide (t = "general")) as [->|Hne2]; [done|].
  rewrite !bool_decide_eq_false_2 by done. cbn. split; congruence.
Qed.

(** What a returning submission appends to the log. *)
Lemma handleResponse_log_shape (fuel : nat) (state : Multi.QuizState)
    (questionId : Z) (answer : response) (run run' : Run Multi.QuizState) :
  Multi.handleResponse fuel state questionId answer run = Some run' →
  (Multi.quizCompleted (live run') = Multi.quizCompleted (live run) ∧
   log run' = log run) ∨
  (Multi.quizCompleted (live run') = true ∧
   ∃ saved,
     (Multi.score (live run') = Multi.score (live run) ∧
      log run' = log run ++ [saveEvent saved]) ∨
     (∃ qs,
        Multi.score (live run') = Multi.calculateRiskScore saved qs ∧
        log run' =
          log run ++
          [saveEvent saved; ScorerCall saved qs;
           QueryRiskAssessment
             (Multi.calculateRiskScore saved qs)
             (cancerTypeFilter
                (head (Multi.detectedCancerTypes state)))])).
Proof.
  intros Hstep. unfold saveEvent.
  handler_cases Hstep; unfold Multi.fetchRiskAssessment;
    repeat match goal with
      | |- context [risk_assessments_single ?a ?b] =>
          destruct (risk_assessments_single a b)
      end;
    fields; rewrite ?saveAllResponses_log, ?saveAllResponses_live; fields;
    rewrite <- ?app_assoc; cbn [app];
    first [ by left
          | right; split; [done|]; eexists; left; by split
          | right; split; [done|]; eexists; right; eexists; by split ].
Qed.

(** X16.  A submission makes external calls only when it completes the quiz.
    Then it first hands the answers to the response store (or sends a
    signed-out user to the login page); on the scored path it next calls
    the scorer on the same answers and queries the risk table for exactly
    the score the scorer returned, which is the score the state then
    holds. *)
Theorem submission_external_calls (fuel : nat) (state : Multi.QuizState)
    (questionId : Z) (answer : response) (run run' : Run Multi.QuizState) :
  Multi.handleResponse fuel state questionId answer run = Some run' →
  (Multi.quizCompleted (live run') = Multi.quizCompleted (live run) ∧
   log run' = log run) ∨
  (Multi.quizCompleted (live run') = true ∧
   ∃ saved,
     (Multi.score (live run') = Multi.score (live run) ∧
      log run' = log run ++ [saveEvent saved]) ∨
     (∃ qs,
        Multi.score (live run') = Multi.calculateRiskScore saved qs ∧
        log run' =
          log run ++
          [saveEvent saved; ScorerCall saved qs;
           QueryRiskAssessment
             (Multi.calculateRiskScore saved qs)
             (cancerTypeFilter
                (head (Multi.detectedCancerTypes state)))])).
Proof. apply handleResponse_log_shape. Qed.

(** X17.  In the log of a session every insert into the response store is
    made for the signed-in user, the login page is visited only when
    nobody is signed in, and no query of the risk table is narrowed to
    the label "general" or to an empty label. *)
Theorem session_log_wellformed (generalData specializedData : list Question)
    (run : Run Multi.QuizState) :
  Multi.reachable generalData specializedData run →
  ∀ e, e ∈ log run →
    match e with
    | InsertResponses user _ => getUser = Some user
    | NavigateLogin => getUser = None
    | ScorerCall _ _ => True
    | QueryRiskAssessment _ cancer =>
        cancer ≠ Some "general" ∧ cancer ≠ Some ""
    end.
Proof.
  induction 1 as [Hne|run run' fuel qid answer Hreach IH Hl Hc Hstep
                 |run Hreach IH]; [by intros e Hin%list_elem_of_In| |done].
  intros e He.
  destruct (handleResponse_log_shape _ _ _ _ _ _ Hstep)
    as [[_ Hlog]|(_ & saved & [[_ Hlog]|(qs & _ & Hlog)])];
    rewrite Hlog in He; [by apply IH|..];
    apply elem_of_app in He as [He|He]; try by apply IH.
  - apply list_elem_of_In in He. destruct He as [<-|[]].
    unfold saveEvent. by destruct getUser.
  - apply list_elem_of_In in He. destruct He as [<-|[<-|[<-|[]]]].
    + unfold saveEvent. by destruct getUser.
    + done.
    + apply cancerTypeFilter_specific.
Qed.


(** X19.  The effect that fetches the questions always ends the loading
    state without an external call of the quiz; the first general
    question is shown when the fetch succeeded with a non-empty general
    partition, and the view without questions in every other case. *)
Theorem fetch_outcome_view (data : option (list Question * list Question)) :
  let run :=
    fetchQuestionsOutcome data {| live := Multi.initialState; log := [] |} in
  Multi.isLoading (live run) = false ∧
  log run = [] ∧
  renderedView (live run) =
    match data with
    | Some (first :: _, _) => QuestionView (Some first)
    | _ => NoQuestionsView
    end.
Proof.
  destruct data as [[[|first generalData] specializedData]|]; by cbn.
Qed.

End SessionProperties.

(** ** Submissions in the single-condition component *)

(** X20.  A submission in the single-condition component makes external
    calls only when it completes the quiz, and every completion is
    scored: the answers including the one just given are handed to the
    response store, the score ranges over them and over the active
    questions (preceded by the general ones in the specialized phase),
    and the risk table is queried for that score, narrowed by the
    detected type the handler read unless that is "general". *)
Theorem simple_submission_external_calls {builtins : Builtins}
    {backend : Backend} (state : Simple.QuizState) (questionId : Z)
    (answer : response) (run : Run Simple.QuizState)
    (currentQuestion : Question) :
  at_index (Simple.questions state) (Simple.currentQuestionIndex state)
    = Some currentQuestion →
  let newResponses := <[questionId := answer]> (Simple.responses state) in
  let run' := Simple.handleResponse state questionId answer run in
  (Simple.quizCompleted (live run') = Simple.quizCompleted (live run) ∧
   Simple.score (live run') = Simple.score (live run) ∧
   log run' = log run) ∨
  (Simple.quizCompleted (live run') = true ∧
   ∃ qs,
     qs = match Simple.quizPhase state with
          | general => Simple.questions state
          | specialized =>
              Simple.generalQuestions state ++ Simple.questions state
          end ∧
     Simple.score (live run') = totalScore newResponses qs ∧
     log run' =
       log run ++
       [saveEvent newResponses; ScorerCall newResponses qs;
        QueryRiskAssessment (totalScore newResponses qs)
          (cancerTypeFilter (Simple.detectedCancerType state))]).
Proof.
  intros Hcur newResponses run'. subst run'.
  unfold Simple.handleResponse. rewrite Hcur. fold newResponses.
  destruct (inRange _ _); [by left|].
  unfold Simple.analyzeGeneralResponses, Simple.calculateRiskScore.
  destruct (Simple.quizPhase state).
  - destruct (0 <? len _); [by left|].
    right. destruct (risk_assessments_single _ _);
      cbn [live log setState emit Simple.quizCompleted Simple.score
           Simple.setQuizCompleted Simple.setRiskAssessment
           Simple.setScore];
      rewrite saveAllResponses_log; cbn [log setState];
      (split; [done|]); eexists; (split; [done|]); (split; [done|]);
      by rewrite <- !app_assoc.
  - right. destruct (risk_assessments_single _ _);
      cbn [live log setState emit Simple.quizCompleted Simple.score
           Simple.setQuizCompleted Simple.setRiskAssessment
           Simple.setScore];
      rewrite saveAllResponses_log; cbn [log setState];
      (split; [done|]); eexists; (split; [done|]); (split; [done|]);
      by rewrite <- !app_assoc.
Qed.

(** ** Worked instances *)

Lemma totalScore_only_reads_its_questions_witness :
  let builtins := sampleBuiltins in
  let q1 := booleanQuestion 1 10 "general" None None in
  totalScore {[ 1 := RStr "Yes"; 2 := RStr "Yes" ]} [q1]
  = totalScore {[ 1 := RStr "Yes" ]} [q1].
Proof.
  intros builtins q1.
  apply (totalScore_only_reads_its_questions
           {[ 1 := RStr "Yes"; 2 := RStr "Yes" ]} {[ 1 := RStr "Yes" ]} [q1]).
  intros q Hq. apply list_elem_of_In in Hq. destruct Hq as [<-|[]].
  reflexivity.
Defined.




Lemma select_contribution_endpoints_witness :
  let builtins := sampleBuiltins in
  let q := selectQuestion 3 10 "skin" ["Never"; "Sometimes"; "Often"] in
  added {[ 3 := RStr "Never" ]} q = JS.zero.
Proof.
  intros builtins q.
  apply (select_contribution_endpoints {[ 3 := RStr "Never" ]} q
           (RStr "Never") ["Never"; "Sometimes"; "Often"] (inject_Z 10));
    reflexivity || (cbn; lia).
Defined.

Lemma detectType_all_negative_witness :
  let g1 := booleanQuestion 1 10 "general"
              (Some [("skin", JS.of_Z 5)]) None in
  Simple.detectType [g1] {[ 1 := RStr "No" ]} = Some "general".
Proof.
  intros g1. apply (detectType_all_negative [g1] {[ 1 := RStr "No" ]}).
  intros q r Hq. apply list_elem_of_In in Hq. destruct Hq as [<-|[]].
  vm_compute. by intros [= <-].
Defined.



Lemma sampleLoaded_reachable :
  Multi.reachable (utils := Multi.specUtils (builtins := sampleBuiltins))
    (backend := sampleBackend) [sampleGeneral] [sampleSkin] sampleLoaded.
Proof. by constructor. Defined.

Lemma sampleSpecialized_reachable :
  Multi.reachable (utils := Multi.specUtils (builtins := sampleBuiltins))
    (backend := sampleBackend) [sampleGeneral] [sampleSkin]
    sampleSpecialized.
Proof.
  apply (Multi.reach_answer _ _ sampleLoaded sampleSpecialized 1 1
           (RStr "Yes") sampleLoaded_reachable); by vm_compute.
Defined.

Lemma current_question_exists_witness :
  ∃ q, at_index (Multi.questions (live sampleSpecialized))
                (Multi.currentQuestionIndex (live sampleSpecialized))
         = Some q ∧
       q ∈ Multi.questions (live sampleSpecialized).
Proof.
  apply (current_question_exists _ _ _ sampleSpecialized_reachable).
  by vm_compute.
Defined.


Lemma queue_is_rest_of_detected_witness :
  ∃ t visited,
    Multi.currentCancerType (live sampleSpecialized) = Some t ∧
    Multi.detectedCancerTypes (live sampleSpecialized)
      = visited ++ t :: Multi.cancerTypesQueue (live sampleSpecialized).
Proof.
  apply (queue_is_rest_of_detected _ _ _ sampleSpecialized_reachable);
    by vm_compute.
Defined.

Lemma sampleCompleted_reachable :
  Multi.reachable (utils := Multi.specUtils (builtins := sampleBuiltins))
    (backend := sampleBackend) [sampleGeneral] [sampleSkin]
    sampleCompleted.
Proof.
  apply (Multi.reach_answer _ _ sampleSpecialized sampleCompleted 1 10
           (RNum (JS.of_Z 5)) sampleSpecialized_reachable); by vm_compute.
Defined.

Lemma risk_assessment_matches_score_witness :
  ∃ data cancer,
    Multi.riskAssessment (live sampleCompleted) = Some data ∧
    risk_assessments_single (Backend := sampleBackend)
      (Multi.score (live sampleCompleted)) cancer = Some data.
Proof.
  eexists. 
  assert (Multi.riskAssessment (live sampleCompleted) = Some
            {| ra_id := 1; risk_level := "Low"; advice := "";
               min_score := JS.zero; max_score := JS.of_Z 100;
               foods_to_eat := []; foods_to_avoid := [];
               cancer_type := Some "skin" |}) as Hdata by by vm_compute.
  destruct (risk_assessment_matches_score _ _ _ _
              sampleCompleted_reachable Hdata) as [cancer Hrow].
  exists cancer. split; [exact Hdata|exact Hrow].
Defined.

Lemma session_views_witness :
  renderedView (live sampleCompleted) = ResultsView ∧
  ∃ saved qs,
    Multi.score (live sampleCompleted)
    = Multi.calculateRiskScore
        (QuizUtils := Multi.specUtils (builtins := sampleBuiltins))
        saved qs.
Proof.
  split; [by vm_compute|].
  pose proof (session_views _ _ _ sampleCompleted_reachable) as Hview.
  change (renderedView (live sampleCompleted)) with ResultsView in Hview.
  exact Hview.
Defined.

Lemma submission_records_answer_witness :
  Multi.responses (live sampleSpecialized) !! 1 = Some (RStr "Yes").
Proof.
  refine (proj1 (proj2 (submission_records_answer
            (utils := Multi.specUtils (builtins := sampleBuiltins))
            (backend := sampleBackend)
            1 (live sampleLoaded) 1 (RStr "Yes") sampleLoaded
            sampleSpecialized _))).
  by vm_compute.
Defined.

Lemma submission_external_calls_witness :
  log sampleSpecialized = log sampleLoaded ∧
  ∃ saved qs,
    log sampleCompleted =
      log sampleSpecialized ++
      [saveEvent (backend := sampleBackend) saved; ScorerCall saved qs;
       QueryRiskAssessment
         (Multi.calculateRiskScore
            (QuizUtils := Multi.specUtils (builtins := sampleBuiltins))
            saved qs)
         (cancerTypeFilter
            (head (Multi.detectedCancerTypes (live sampleSpecialized))))].
Proof.
  split; [by vm_compute|].
  destruct (submission_external_calls
              (utils := Multi.specUtils (builtins := sampleBuiltins))
              (backend := sampleBackend)
              1 (live sampleSpecialized) 10 (RNum (JS.of_Z 5))
              sampleSpecialized sampleCompleted)
    as [[Hc _]|(_ & saved & [[Hs _]|(qs & _ & Hlog)])].
  - by vm_compute.
  - exfalso. vm_compute in Hc. discriminate.
  - exfalso. vm_compute in Hs. discriminate.
  - by exists saved, qs.
Defined.

Lemma session_log_wellformed_witness :
  QueryRiskAssessment (JS.of_Z 20) (Some "skin") ∈ log sampleCompleted ∧
  Some "skin" ≠ Some "general" ∧ Some "skin" ≠ (Some "" : option string).
Proof.
  assert (QueryRiskAssessment (JS.of_Z 20) (Some "skin")
          ∈ log sampleCompleted) as Hin.
  { apply list_elem_of_In. vm_compute. right; right; left. reflexivity. }
  split; [exact Hin|].
  exact (session_log_wellformed _ _ _ sampleCompleted_reachable _ Hin).
Defined.


Lemma simple_submission_external_calls_witness :
  let builtins := sampleBuiltins in
  let backend := sampleBackend in
  let state :=
    {| Simple.isLoading := false; Simple.questions := [sampleGeneral];
       Simple.generalQuestions := [sampleGeneral];
       Simple.specializedQuestions := [];
       Simple.currentQuestionIndex := 0; Simple.responses := ∅;
       Simple.quizCompleted := false; Simple.score := JS.zero;
       Simple.riskAssessment := None; Simple.quizPhase := general;
       Simple.detectedCancerType := None |} in
  let run := {| live := state; log := [] |} in
  let run' := Simple.handleResponse state 1 (RStr "Yes") run in
  Simple.quizCompleted (live run') = true ∧
  log run' =
    [saveEvent {[ 1 := RStr "Yes" ]};
     ScorerCall {[ 1 := RStr "Yes" ]} [sampleGeneral];
     QueryRiskAssessment (JS.of_Z 10) None].
Proof.
  intros builtins backend state run run'.
  destruct (simple_submission_external_calls state 1 (RStr "Yes") run
              sampleGeneral eq_refl)
    as [(Hc & _)|(Hc & qs & -> & _ & Hlog)].
  - exfalso. vm_compute in Hc. discriminate.
  - split; [exact Hc|exact Hlog].
Defined.
